(** * fast_ICA utilities: configuration manager and elapsed-time aggregator

    A shallow embedding of
    - [src/utils/config_parser/config.py] (class [ConfigManager]) and
    - [src/utils/total_time.py] (function [calculate_total_time]),
    together with the properties their specification states about them.

    Python objects are modelled by value: a YAML document is a tree
    ([value]), a [dict] is an insertion-ordered association list with
    unique keys, exceptions are an error monad ([result]), and the Python
    builtins the code calls but does not define ([yaml.safe_load], [open],
    [float], [json.dump]) are parameters of the sections that use them.
    Module [Heap] models the merge once more on a store of shared
    dictionary objects, to show what sharing changes. *)

From Stdlib Require Import List String Ascii ZArith Bool Arith Lia Permutation.
From Stdlib Require Import Floats Uint63.
Import ListNotations.
Open Scope string_scope.
Open Scope list_scope.

Set Warnings "-register-all".

(** ** Python exceptions as an error monad *)

Module Py.

(** The exception classes the two source files can meet.  [SystemExit] is
    the only one that is not a subclass of [Exception]. *)
Inductive exn : Type :=
| KeyError (key : string)
| TypeError
| AttributeError
| ValueError
| OSError
| YAMLError
| SystemExit (code : Z).

Inductive result (A : Type) : Type :=
| Ok (a : A)
| Raise (e : exn).

Arguments Ok {A} a.
Arguments Raise {A} e.

Definition bind {A B : Type} (m : result A) (k : A -> result B) : result B :=
  match m with
  | Ok a => k a
  | Raise e => Raise e
  end.

(** [except Exception] catches everything but [SystemExit]. *)
Definition is_Exception (e : exn) : bool :=
  match e with
  | SystemExit _ => false
  | _ => true
  end.

(** [except ValueError] *)
Definition is_ValueError (e : exn) : bool :=
  match e with
  | ValueError => true
  | _ => false
  end.

Definition returns {A : Type} (m : result A) : Prop := exists a, m = Ok a.

End Py.

Export Py.

Notation "x <- m ;; k" := (bind m (fun x => k))
  (at level 61, m at next level, right associativity).

(** ** YAML documents and Python dictionaries *)

Module Yaml.

(** What [yaml.safe_load] builds: scalars, lists and mappings with string
    keys.  A mapping keeps its entries in insertion order.  A document is
    a tree: no two places of it hold one and the same mutable object (the
    document uses no YAML alias), so that a mutation in place is the
    rebuilding of the value at that place. *)
Inductive value : Type :=
| YNull
| YBool (b : bool)
| YInt (z : Z)
| YFloat (f : float)
| YStr (s : string)
| YList (elems : list value)
| YDict (entries : list (string * value)).

Definition dict : Type := list (string * value).

Definition keys (d : dict) : list string := map fst d.

(** [d.get(k)]: the value of the first (and, in a Python dict, only) entry
    with key [k]. *)
Fixpoint dict_get (k : string) (d : dict) : option value :=
  match d with
  | [] => None
  | (k', v) :: rest => if String.eqb k k' then Some v else dict_get k rest
  end.

(** [k in d] *)
Definition dict_mem (k : string) (d : dict) : bool :=
  match dict_get k d with
  | Some _ => true
  | None => false
  end.

(** [d[k] = v]: an existing key keeps its position and takes the new value,
    a new key is appended. *)
Fixpoint dict_set (k : string) (v : value) (d : dict) : dict :=
  match d with
  | [] => [(k, v)]
  | (k', v') :: rest =>
      if String.eqb k k' then (k', v) :: rest else (k', v') :: dict_set k v rest
  end.

(** [isinstance(v, dict)] *)
Definition is_dict (v : value) : bool :=
  match v with
  | YDict _ => true
  | _ => false
  end.

(** [ConfigManager._deep_merge], lines 104-116.  The loop over
    [source.items()] is the inner [fix]; [dest] is threaded through it
    because the method mutates [dest] in place.  The recursive call
    [self._deep_merge(dest[key], value)] mutates the sub-dictionary stored
    at [key], which here is re-stored at the same position. *)
Fixpoint merge_value (dest : dict) (source : value) {struct source} : dict :=
  match source with
  | YDict entries =>
      (fix loop (dest : dict) (items : list (string * value)) {struct items} : dict :=
         match items with
         | [] => dest
         | (key, val) :: rest =>
             loop (match dict_get key dest, val with
                   | Some (YDict sub), YDict _ =>
                       dict_set key (YDict (merge_value sub val)) dest
                   | _, _ => dict_set key val dest
                   end) rest
         end) dest entries
  | _ => dest
  end.

Definition deep_merge (dest source : dict) : dict :=
  merge_value dest (YDict source).

(** One iteration of the loop of [_deep_merge]. *)
Definition merge_entry (dest : dict) (key : string) (val : value) : dict :=
  match dict_get key dest, val with
  | Some (YDict sub), YDict src => dict_set key (YDict (deep_merge sub src)) dest
  | _, _ => dict_set key val dest
  end.

(** *** Python's [==] on documents

    [dict.__eq__] ignores insertion order: two mappings are equal when they
    have the same number of entries and every entry of the first is found
    in the second with an equal value.  Lists compare element by element.
    Scalars are compared structurally here, which is finer than Python's
    numeric [==] (which also equates [1], [1.0] and [True]). *)
Definition all2 {A : Type} (eqb : A -> A -> bool) : list A -> list A -> bool :=
  fix go (xs ys : list A) {struct xs} : bool :=
    match xs, ys with
    | [], [] => true
    | x :: xs', y :: ys' => eqb x y && go xs' ys'
    | _, _ => false
    end.

Fixpoint value_eqb (a b : value) {struct a} : bool :=
  match a, b with
  | YNull, YNull => true
  | YBool x, YBool y => Bool.eqb x y
  | YInt x, YInt y => Z.eqb x y
  | YFloat x, YFloat y => PrimFloat.Leibniz.eqb x y
  | YStr x, YStr y => String.eqb x y
  | YList xs, YList ys => all2 value_eqb xs ys
  | YDict d1, YDict d2 =>
      Nat.eqb (List.length d1) (List.length d2) &&
      forallb (fun kv =>
                 match dict_get (fst kv) d2 with
                 | Some w => value_eqb (snd kv) w
                 | None => false
                 end) d1
  | _, _ => false
  end.

Definition dict_eqb (d1 d2 : dict) : bool := value_eqb (YDict d1) (YDict d2).

(** *** The invariant of Python dictionaries: keys are unique *)

Fixpoint unique (ks : list string) : bool :=
  match ks with
  | [] => true
  | k :: rest => negb (existsb (String.eqb k) rest) && unique rest
  end.

(** Every mapping inside [v], at any depth, has unique keys. *)
Fixpoint well_formed (v : value) : bool :=
  match v with
  | YList xs => forallb well_formed xs
  | YDict d => unique (map fst d) && forallb (fun kv => well_formed (snd kv)) d
  | _ => true
  end.

(** [permuted_level s s']: [s'] is [s] with the entries of the mapping at
    one level (the top level, or one nested mapping reached through keys)
    listed in another order. *)
Inductive permuted_level : dict -> dict -> Prop :=
| permuted_here (s s' : dict) :
    Permutation s s' -> permuted_level s s'
| permuted_below (pre post : dict) (k : string) (sub sub' : dict) :
    permuted_level sub sub' ->
    permuted_level (pre ++ (k, YDict sub) :: post) (pre ++ (k, YDict sub') :: post).

End Yaml.

Export Yaml.


(** ** The configuration manager ([config.py]) *)

Module Config.

Inductive level : Type := DEBUG | INFO | WARNING | ERROR.

(** A call of [logger.<level>(msg)]; [cause] is the exception the message
    interpolates, when there is one. *)
Record log_record : Type := mkLog {
  lvl : level;
  msg : string;
  cause : option exn
}.

(** The mutable state the methods act on: the fields of [self], the
    records handed to the module's logger, and the files written. *)
Record state : Type := mkState {
  config : value;
  env : string;
  log : list log_record;
  files : list (string * string)
}.

(** State and exceptions: a raised exception keeps the mutations made
    before it. *)
Definition M (A : Type) : Type := state -> result A * state.

Definition ret {A : Type} (a : A) : M A := fun s => (Ok a, s).

Definition raise {A : Type} (e : exn) : M A := fun s => (Raise e, s).

Definition mbind {A B : Type} (m : M A) (k : A -> M B) : M B :=
  fun s =>
    match m s with
    | (Ok a, s') => k a s'
    | (Raise e, s') => (Raise e, s')
    end.

Definition lift {A : Type} (r : result A) : M A := fun s => (r, s).

(** A computation that only reads the state. *)
Definition reading {A : Type} (f : state -> result A) : M A := fun s => (f s, s).

Definition get_config : M value := fun s => (Ok (config s), s).

Definition set_config (v : value) : M unit :=
  fun s => (Ok tt, mkState v (env s) (log s) (files s)).

Definition logger (l : level) (m : string) (c : option exn) : M unit :=
  fun s => (Ok tt, mkState (config s) (env s) (log s ++ [mkLog l m c]) (files s)).

Definition write_file (path content : string) : M unit :=
  fun s => (Ok tt, mkState (config s) (env s) (log s) (files s ++ [(path, content)])).

(** The state after the warning of [get_implementation_config]. *)
Definition warn_unknown (s : state) (name : string) : state :=
  mkState (config s) (env s)
    (log s ++ [mkLog WARNING ("No configuration found for implementation: " ++ name) None])
    (files s).

(** [try: body  except <catches> as e: handler e] *)
Definition try_except {A : Type} (body : M A) (catches : exn -> bool)
    (handler : exn -> M A) : M A :=
  fun s =>
    match body s with
    | (Ok a, s') => (Ok a, s')
    | (Raise e, s') => if catches e then handler e s' else (Raise e, s')
    end.

Declare Scope cfg_scope.
Delimit Scope cfg_scope with cfg.
Notation "'do' x <- m ; k" := (mbind m (fun x => k))
  (at level 10, x name, m at level 100, k at level 200) : cfg_scope.

(** *** Dynamically typed operations on documents *)

(** [o[k]] with a string [k]: only a mapping can be indexed by a string. *)
Definition subscript (o : value) (k : string) : result value :=
  match o with
  | YDict d =>
      match dict_get k d with
      | Some v => Ok v
      | None => Raise (KeyError k)
      end
  | _ => Raise TypeError
  end.

(** [k in s] for strings: [k] occurs in [s]. *)
Definition is_substring (k s : string) : bool :=
  match String.index 0 k s with
  | Some _ => true
  | None => false
  end.

(** [k in o] with a string [k]. *)
Definition contains (k : string) (o : value) : result bool :=
  match o with
  | YDict d => Ok (dict_mem k d)
  | YList xs => Ok (existsb (value_eqb (YStr k)) xs)
  | YStr s => Ok (is_substring k s)
  | _ => Raise TypeError
  end.

(** The bound method [o.get]: only mappings have it. *)
Definition attr_get (o : value) : result (string -> value -> value) :=
  match o with
  | YDict d =>
      Ok (fun k default =>
            match dict_get k d with
            | Some v => v
            | None => default
            end)
  | _ => Raise AttributeError
  end.

(** [self._deep_merge(dest, source)] on arbitrary documents.  [source]
    needs [.items()].  When [dest] is no mapping, the first iteration
    raises [TypeError] before anything is stored ([key in dest] fails on a
    scalar; on a string or a list both [dest[key]] and [dest[key] = value]
    do); with no iteration nothing happens. *)
Definition deep_merge_dyn (dest source : value) : result value :=
  match source with
  | YDict src =>
      match dest with
      | YDict d => Ok (YDict (deep_merge d src))
      | _ =>
          match src with
          | [] => Ok dest
          | _ :: _ => Raise TypeError
          end
      end
  | _ => Raise AttributeError
  end.

(** Truth value of an optional string argument ([if config_file:]). *)
Definition truthy (o : option string) : bool :=
  match o with
  | Some s => negb (String.eqb s "")
  | None => false
  end.

Section Manager.

(** The world outside the module. *)
Variable DEFAULT_CONFIG_FILE : string.
(** [open(path, "r")] followed by reading the file. *)
Variable open_read : string -> result string.
(** [yaml.safe_load] *)
Variable safe_load : string -> result value.
(** [json.dump(_, _, indent=2)] *)
Variable json_dumps : value -> string.
(** The name [tempfile.NamedTemporaryFile] picks, given the files there. *)
Variable temp_name : list (string * string) -> string.

Local Open Scope cfg_scope.

(** The document at [path] is missing or malformed: opening it or
    parsing its content raises [e]. *)
Definition unreadable (path : string) (e : exn) : Prop :=
  open_read path = Raise e
  \/ exists content, open_read path = Ok content /\ safe_load content = Raise e.

(** Lines 77-85. *)
Definition _load_default_config : M unit :=
  try_except
    (do content <- lift (open_read DEFAULT_CONFIG_FILE);
     do doc <- lift (safe_load content);
     do _ <- set_config doc;
     logger DEBUG "Loaded default configuration" None)
    is_Exception
    (fun e =>
       do _ <- logger ERROR "Error loading default config: " (Some e);
       raise (SystemExit 1)).

(** Lines 87-102. *)
Definition _load_custom_config (config_path : string) : M unit :=
  try_except
    (do content <- lift (open_read config_path);
     do custom_config <- lift (safe_load content);
     do dest <- get_config;
     do merged <- lift (deep_merge_dyn dest custom_config);
     do _ <- set_config merged;
     logger DEBUG ("Loaded custom configuration from " ++ config_path) None)
    is_Exception
    (fun e =>
       logger ERROR ("Error loading custom config from " ++ config_path ++ ": ")
         (Some e)).

(** The loading part of [__init__], lines 45-55: [config_file] is the
    constructor's argument and [env_config] the value of the environment
    variable [FAST_ICA_CONFIG].  The logging set-up that follows is not
    modelled. *)
Definition load (config_file env_config : option string) : M unit :=
  do _ <- set_config (YDict []);
  do _ <- _load_default_config;
  if truthy config_file then
    match config_file with
    | Some path => _load_custom_config path
    | None => ret tt
    end
  else if truthy env_config then
    match env_config with
    | Some path => _load_custom_config path
    | None => ret tt
    end
  else ret tt.

(** Line 152.  The callee [....get] is evaluated first, then the two
    arguments: the fallback [self.config["global"]["matlab"]["local"]]
    is looked up before [get] runs. *)
Definition get_matlab_path (self : state) : result value :=
  g <- subscript (config self) "global" ;;
  m <- subscript g "matlab" ;;
  get <- attr_get m ;;
  g' <- subscript (config self) "global" ;;
  m' <- subscript g' "matlab" ;;
  fallback <- subscript m' "local" ;;
  Ok (get (env self) fallback).

(** Line 161. *)
Definition get_eeglab_path (self : state) : result value :=
  g <- subscript (config self) "global" ;;
  e <- subscript g "eeglab" ;;
  subscript e "path".

(** Line 170. *)
Definition get_matlab_startup_options (self : state) : result value :=
  g <- subscript (config self) "global" ;;
  e <- subscript g "eeglab" ;;
  subscript e "startup_options".

(** Lines 182-186. *)
Definition get_implementation_config (implementation : string) : M value :=
  do self <- get_config;
  do impls <- lift (subscript self "implementations");
  do found <- lift (contains implementation impls);
  if found : bool then
    do self' <- get_config;
    do impls' <- lift (subscript self' "implementations");
    lift (subscript impls' implementation)
  else
    do _ <- logger WARNING
      ("No configuration found for implementation: " ++ implementation) None;
    ret (YDict []).

(** Line 195. *)
Definition get_amica_params (self : state) : result value :=
  g <- subscript (config self) "global" ;;
  subscript g "amica".

(** Line 204. *)
Definition get_project_structure (self : state) : result value :=
  p <- subscript (config self) "project" ;;
  subscript p "structure".

(** Lines 220-228: the dictionary [matlab_config]. *)
Definition matlab_config (implementation : string) : M dict :=
  do amica <- reading get_amica_params;
  do impl <- get_implementation_config implementation;
  do eeglab <- reading get_eeglab_path;
  let cfg := [("amica", amica); ("implementation", impl); ("eeglab_path", eeglab)] in
  if String.eqb implementation "strengthen" then
    do project <- reading get_project_structure;
    ret (dict_set "project" project cfg)
  else ret cfg.

(** Lines 206-235. *)
Definition export_matlab_config (implementation : string) : M string :=
  do cfg <- matlab_config implementation;
  do name <- reading (fun s => Ok (temp_name (files s)));
  do _ <- write_file name (json_dumps (YDict cfg));
  ret name.

End Manager.

End Config.

(** ** The elapsed-time aggregator ([total_time.py]) *)

Module TotalTime.

(** A line is a [string]; its characters are the code points below 256. *)

(** [c in line] for a one-character string [c]. *)
Fixpoint contains (c : ascii) (line : string) : bool :=
  match line with
  | EmptyString => false
  | String x rest => Ascii.eqb x c || contains c rest
  end.

(** [line.index(c)]: the position of the first [c], [ValueError] when
    there is none. *)
Fixpoint index_of (c : ascii) (line : string) : result nat :=
  match line with
  | EmptyString => Raise ValueError
  | String x rest =>
      if Ascii.eqb x c then Ok 0 else i <- index_of c rest ;; Ok (S i)
  end.

(** [line[start:stop]] for non-negative bounds: empty when [stop <= start]. *)
Definition slice (line : string) (start stop : nat) : string :=
  substring start (stop - start) line.

(** [str.isspace] on code points below 256. *)
Definition is_space (c : ascii) : bool :=
  let n := nat_of_ascii c in
  (((9 <=? n) && (n <=? 13)) || ((28 <=? n) && (n <=? 32))
   || (n =? 133) || (n =? 160))%nat.

Fixpoint lstrip (s : string) : string :=
  match s with
  | EmptyString => EmptyString
  | String c rest => if is_space c then lstrip rest else s
  end.

Fixpoint rstrip (s : string) : string :=
  match s with
  | EmptyString => EmptyString
  | String c rest =>
      match rstrip rest with
      | EmptyString => if is_space c then EmptyString else String c EmptyString
      | rest' => String c rest'
      end
  end.

(** [s.strip()] *)
Definition strip (s : string) : string := rstrip (lstrip s).

(** Python numbers as the accumulator holds them: the [int] literal [0]
    at first, a [float] after the first addition. *)
Inductive pynum : Type :=
| PInt (z : Z)
| PFloat (f : float).

(** [float(z)] for the small integers of this program (exact below 2^53). *)
Definition float_of_Z (z : Z) : float :=
  match z with
  | Zneg _ => PrimFloat.opp (PrimFloat.of_uint63 (Uint63.of_Z (Z.opp z)))
  | _ => PrimFloat.of_uint63 (Uint63.of_Z z)
  end.

Definition to_float (n : pynum) : float :=
  match n with
  | PInt z => float_of_Z z
  | PFloat f => f
  end.

(** [total += t] with a float [t]: an [int] total is converted first. *)
Definition py_add (total : pynum) (t : float) : pynum :=
  PFloat (PrimFloat.add (to_float total) t).

(** [total / d] with an [int] literal [d]: true division, always a float. *)
Definition py_truediv (total : pynum) (d : Z) : float :=
  PrimFloat.div (to_float total) (float_of_Z d).

Section Aggregator.

(** The builtin [float] on strings: [None] stands for [ValueError]. *)
Variable py_float : string -> option float.

(** The body of the [try], lines 13-15. *)
Definition parse_line (line : string) : result float :=
  i <- index_of "(" line ;;
  let start_idx := i + 1 in
  end_idx <- index_of "s" line ;;
  match py_float (strip (slice line start_idx end_idx)) with
  | Some time_in_seconds => Ok time_in_seconds
  | None => Raise ValueError
  end.

(** One iteration of the loop, lines 11-18. *)
Definition step (total_seconds : pynum) (line : string) : result pynum :=
  if contains "(" line && contains "s" line then
    match parse_line line with
    | Ok time_in_seconds => Ok (py_add total_seconds time_in_seconds)
    | Raise e => if is_ValueError e then Ok total_seconds else Raise e
    end
  else Ok total_seconds.

(** The loop over the lines of the file, lines 9-18. *)
Fixpoint scan (total_seconds : pynum) (lines : list string) : result pynum :=
  match lines with
  | [] => Ok total_seconds
  | line :: rest =>
      total_seconds' <- step total_seconds line ;;
      scan total_seconds' rest
  end.

(** Lines 5-21, on the lines the opened file yields. *)
Definition calculate_total_time (lines : list string) : result float :=
  total_seconds <- scan (PInt 0) lines ;;
  Ok (py_truediv total_seconds 3600).

End Aggregator.

(** The token as the specification words it: the text between the first
    opening parenthesis and the first [s] that follows it. *)
Fixpoint drop (n : nat) (s : string) : string :=
  match n, s with
  | S n', String _ rest => drop n' rest
  | _, _ => s
  end.

Definition spec_token (line : string) : option string :=
  match index_of "(" line with
  | Ok i =>
      let after := drop (i + 1) line in
      match index_of "s" after with
      | Ok j => Some (substring 0 j after)
      | Raise _ => None
      end
  | Raise _ => None
  end.

(** *** A reference instance of [float]

    Plain decimal literals [digits] or [digits.digits] with at most 15
    digits in all: mantissa and power of ten are then exact floats and one
    correctly rounded division gives the value [float] returns.  Every
    other string is rejected, so this instance serves to run the model on
    examples and nothing else. *)

Definition digit_value (c : ascii) : option Z :=
  let n := nat_of_ascii c in
  if ((48 <=? n) && (n <=? 57))%nat then Some (Z.of_nat (n - 48)) else None.

(** Reads [digits] then, after a single point, more [digits]; returns the
    mantissa, the number of digits read and the number after the point. *)
Fixpoint read_decimal (s : string) (seen_point : bool) (mant : Z) (nd nf : nat)
  : option (Z * nat * nat) :=
  match s with
  | EmptyString => Some (mant, nd, nf)
  | String c rest =>
      match digit_value c with
      | Some d =>
          read_decimal rest seen_point (10 * mant + d) (S nd)
            (if seen_point then S nf else nf)
      | None =>
          if Ascii.eqb c "." && negb seen_point && negb (nd =? 0)%nat
          then read_decimal rest true mant nd nf
          else None
      end
  end.

Definition simple_float (s : string) : option float :=
  match read_decimal s false 0 0 0 with
  | Some (mant, nd, nf) =>
      if (negb (nd =? 0) && (nd <=? 15))%nat
      then Some (PrimFloat.div (float_of_Z mant) (float_of_Z (10 ^ Z.of_nat nf)))
      else None
  | None => None
  end.

End TotalTime.

(** ** Settings addressed by a path of keys *)

Module Paths.

(** [doc[k1][k2]...[kn]] as the accessors chain subscripts: [None] when a
    key is missing or a value on the way is no mapping. *)
Fixpoint get_path (path : list string) (doc : value) : option value :=
  match path with
  | [] => Some doc
  | k :: rest =>
      match doc with
      | YDict d =>
          match dict_get k d with
          | Some v => get_path rest v
          | None => None
          end
      | _ => None
      end
  end.

End Paths.

(** ** The command line of the configuration parser ([config.py]) *)

Module Cli.

Import Config.

(** [bool(v)]: what [if v:] tests. *)
Definition truth (v : value) : bool :=
  match v with
  | YNull => false
  | YBool b => b
  | YInt z => negb (Z.eqb z 0)
  | YFloat f => negb (PrimFloat.eqb f PrimFloat.zero)
  | YStr s => negb (String.eqb s "")
  | YList xs => match xs with [] => false | _ :: _ => true end
  | YDict d => match d with [] => false | _ :: _ => true end
  end.

Section Environment.

(** [os.path.exists] *)
Variable path_exists : string -> bool.
(** [name in os.environ] *)
Variable in_environ : string -> bool.

(** Lines 62-75. *)
Definition _detect_environment : string :=
  if path_exists "/.dockerenv" || path_exists "/.singularity.d" then "container"
  else if path_exists "/etc/slurm" || in_environ "SLURM_JOB_ID" then "server"
  else "local".

(** Line 46: [self.env = env or self._detect_environment()]. *)
Definition init_env (env : option string) : string :=
  match env with
  | Some e => if truthy env then e else _detect_environment
  | None => _detect_environment
  end.

End Environment.

Section Main.

(** [yaml.dump(_, default_flow_style=False)] *)
Variable yaml_dump : value -> string.
Variable json_dumps : value -> string.
Variable temp_name : list (string * string) -> string.

Local Open Scope cfg_scope.

(** [get_config], lines 252-256, on the manager constructed at line 250
    (the state): the second component of the pair it returns. *)
Definition get_config (implementation : option string) : M (option value) :=
  if truthy implementation then
    match implementation with
    | Some name =>
        do implementation_config <- get_implementation_config name;
        ret (Some implementation_config)
    | None => ret None
    end
  else ret None.

(** [main], lines 271-283, from the parsed arguments [--implementation]
    and [--export-matlab], on the constructed manager: the result is the
    text handed to [print]. *)
Definition main (implementation : option string) (export_matlab : bool) : M string :=
  do impl_config <- get_config implementation;
  if export_matlab && truthy implementation then
    match implementation with
    | Some name =>
        do matlab_config_path <- export_matlab_config json_dumps temp_name name;
        ret ("MATLAB configuration exported to: " ++ matlab_config_path)%string
    | None => do cfg <- Config.get_config; ret (yaml_dump cfg)
    end
  else
    match impl_config with
    | Some profile =>
        if truth profile then ret (yaml_dump profile)
        else do cfg <- Config.get_config; ret (yaml_dump cfg)
    | None => do cfg <- Config.get_config; ret (yaml_dump cfg)
    end.

End Main.

End Cli.

(** ** The command line of the aggregator ([total_time.py]) *)

Module Script.

Import TotalTime.

(** How a run of the script ends. *)
Inductive outcome : Type :=
| Finished
| IndexError
| Uncaught (e : exn).

Section Main.

Variable py_float : string -> option float.
(** Opening [file_path] and reading its lines; a failure ([OSError], or a
    decoding error while reading) is raised outside the [try]. *)
Variable read_lines : string -> result (list string).
(** The format [{total_hours:.2f}]. *)
Variable format_hours : float -> string.

(** [calculate_total_time(file_path)], lines 5-21, from the path. *)
Definition calculate_total_time_of (file_path : string) : result float :=
  lines <- read_lines file_path ;;
  calculate_total_time py_float lines.

(** Lines 23-29: the lines printed and how the run ends. *)
Definition main (argv : list string) : list string * outcome :=
  let printed :=
    if (List.length argv <? 2)%nat
    then ["Usage: python3 total_time.py <file_path>"]
    else [] in
  match nth_error argv 1 with
  | None => (printed, IndexError)
  | Some file_path =>
      match calculate_total_time_of file_path with
      | Ok total_hours =>
          (printed ++ [("Total time in hours: " ++ format_hours total_hours)%string],
           Finished)
      | Raise e => (printed, Uncaught e)
      end
  end.

End Main.

End Script.

(** ** The merge on shared objects *)

Module Heap.

(** What a dictionary slot holds in Python: a reference.  Scalars and
    lists behave as values under the merge; a [dict] is an object with an
    address, and two slots may hold the same address (this is what
    [yaml.safe_load] builds from an alias [*x] of an anchor [&x]).  A
    mapping is always a [Ref], never a [Val]. *)
Inductive obj : Type :=
| Val (v : value)
| Ref (addr : nat).

Definition dictobj : Type := list (string * obj).

(** The store of dictionary objects, by address. *)
Definition heap : Type := list (nat * dictobj).

Fixpoint hget (a : nat) (h : heap) : option dictobj :=
  match h with
  | [] => None
  | (a', d) :: rest => if Nat.eqb a a' then Some d else hget a rest
  end.

Fixpoint hput (a : nat) (d : dictobj) (h : heap) : heap :=
  match h with
  | [] => [(a, d)]
  | (a', d') :: rest =>
      if Nat.eqb a a' then (a', d) :: rest else (a', d') :: hput a d rest
  end.

Fixpoint oget (k : string) (d : dictobj) : option obj :=
  match d with
  | [] => None
  | (k', v) :: rest => if String.eqb k k' then Some v else oget k rest
  end.

Fixpoint oset (k : string) (v : obj) (d : dictobj) : dictobj :=
  match d with
  | [] => [(k, v)]
  | (k', v') :: rest =>
      if String.eqb k k' then (k', v) :: rest else (k', v') :: oset k v rest
  end.

(** [ConfigManager._deep_merge], lines 104-116, on the store: [dest] and
    [source] are addresses, [dest[key] = value] overwrites a slot of the
    object at [dest] with the reference [value], and the recursive call
    works on the object that [dest[key]] refers to, whoever else refers
    to it.  [fuel] bounds the depth of the recursion. *)
Fixpoint deep_merge_heap (fuel : nat) (dest source : nat) (h : heap) : option heap :=
  match fuel with
  | O => None
  | S n =>
      match hget source h with
      | None => None
      | Some items =>
          (fix loop (items : dictobj) (h : heap) {struct items} : option heap :=
             match items with
             | [] => Some h
             | (key, val) :: rest =>
                 match hget dest h with
                 | None => None
                 | Some d =>
                     match oget key d, val with
                     | Some (Ref sub), Ref src =>
                         match deep_merge_heap n sub src h with
                         | Some h' => loop rest h'
                         | None => None
                         end
                     | _, _ => loop rest (hput dest (oset key val d) h)
                     end
                 end
             end) items h
      end
  end.

(** The document a reference denotes in a store. *)
Fixpoint read (fuel : nat) (h : heap) (o : obj) : option value :=
  match o with
  | Val v => Some v
  | Ref a =>
      match fuel with
      | O => None
      | S n =>
          match hget a h with
          | None => None
          | Some items =>
              option_map YDict
                ((fix each (items : dictobj) : option (list (string * value)) :=
                    match items with
                    | [] => Some []
                    | (k, v) :: rest =>
                        match read n h v, each rest with
                        | Some x, Some xs => Some ((k, x) :: xs)
                        | _, _ => None
                        end
                    end) items)
          end
      end
  end.

(** The merge of the object at [source] into the object at [dest], read
    back as a document. *)
Definition merged_document (h : heap) (dest source : nat) : option value :=
  match deep_merge_heap 8 dest source h with
  | Some h' => read 8 h' (Ref dest)
  | None => None
  end.

(** A base [{a: &x {p: 1}, b: *x}] at address 0, whose two keys hold one
    object (address 2), and the override [{a: {p: 2}, b: {p: 3}}] with its
    keys listed in either order (addresses 1 and 5). *)
Definition aliased_store : heap :=
  [(0, [("a", Ref 2); ("b", Ref 2)]);
   (2, [("p", Val (YInt 1))]);
   (1, [("a", Ref 3); ("b", Ref 4)]);
   (5, [("b", Ref 4); ("a", Ref 3)]);
   (3, [("p", Val (YInt 2))]);
   (4, [("p", Val (YInt 3))])].

(** The same base without sharing: each key has an object of its own. *)
Definition unshared_store : heap :=
  [(0, [("a", Ref 2); ("b", Ref 6)]);
   (2, [("p", Val (YInt 1))]);
   (6, [("p", Val (YInt 1))]);
   (1, [("a", Ref 3); ("b", Ref 4)]);
   (5, [("b", Ref 4); ("a", Ref 3)]);
   (3, [("p", Val (YInt 2))]);
   (4, [("p", Val (YInt 3))])].

End Heap.

(** ** Sample data to run the model on *)

Module Sample.

Import Config.

Definition demo_doc : value :=
  YDict
    [("global",
      YDict [("matlab", YDict [("local", YStr "/usr/local/bin/matlab");
                               ("server", YStr "/opt/matlab/bin/matlab")]);
             ("eeglab", YDict [("path", YStr "/opt/eeglab");
                               ("startup_options", YStr "-nodisplay")]);
             ("amica", YDict [("max_iter", YInt 2000); ("num_models", YInt 1)])]);
     ("implementations",
      YDict [("parallel", YDict [("max_threads", YInt 8)]);
             ("strengthen", YDict [("use_cluster", YBool true)])]);
     ("project", YDict [("structure", YDict [("raw_dir", YStr "raw")])])].

Definition demo_default : string := "config/default.yml".

Definition demo_open (path : string) : result string :=
  if String.eqb path "config/default.yml" then Ok "default document"
  else if String.eqb path "broken.yml" then Ok "{unclosed"
  else Raise OSError.

Definition demo_safe_load (content : string) : result value :=
  if String.eqb content "default document" then Ok demo_doc
  else Raise YAMLError.

Definition demo_state (e : string) : state := mkState demo_doc e [] [].

(** A document whose environment mapping has no ["local"] entry. *)
Definition no_local_state : state :=
  mkState
    (YDict [("global",
             YDict [("matlab", YDict [("server", YStr "/opt/matlab/bin/matlab")])])])
    "server" [] [].

Definition demo_json (v : value) : string := "<json>".

Definition demo_temp (existing : list (string * string)) : string := "/tmp/tmp0001.json".

End Sample.

(** ** More sample data *)

Module Fixtures.

Import Config Sample.

(** An empty override file, parsed to [None]. *)
Definition open_empty (path : string) : result string :=
  if String.eqb path "empty.yml" then Ok "" else demo_open path.

Definition load_empty (content : string) : result value :=
  if String.eqb content "" then Ok YNull else demo_safe_load content.

End Fixtures.

(** ** Properties of dictionaries and of the deep merge *)

Module YamlFacts.

Lemma deep_merge_nil (dest : dict) : deep_merge dest [] = dest.
Proof. reflexivity. Qed.

Lemma deep_merge_cons (dest : dict) (key : string) (val : value) (rest : dict) :
  deep_merge dest ((key, val) :: rest) = deep_merge (merge_entry dest key val) rest.
Proof.
  unfold deep_merge, merge_entry. simpl.
  destruct (dict_get key dest) as [[]|]; destruct val; reflexivity.
Qed.


(** The value stored at a key of [source] by one iteration. *)
Lemma merge_entry_set (dest : dict) (key : string) (val : value) :
  merge_entry dest key val
  = dict_set key
      (match dict_get key dest, val with
       | Some (YDict sub), YDict src => YDict (deep_merge sub src)
       | _, _ => val
       end) dest.
Proof.
  unfold merge_entry.
  destruct (dict_get key dest) as [[]|]; destruct val; reflexivity.
Qed.

Lemma dict_get_set_same (k : string) (v : value) (d : dict) :
  dict_get k (dict_set k v d) = Some v.
Proof.
  induction d as [|[k' v'] rest IH]; simpl.
  - now rewrite String.eqb_refl.
  - destruct (String.eqb k k') eqn:E; simpl; rewrite E; auto.
Qed.

Lemma dict_get_set_other (k k' : string) (v : value) (d : dict) :
  k <> k' -> dict_get k (dict_set k' v d) = dict_get k d.
Proof.
  intro Hne. induction d as [|[k0 v0] rest IH]; simpl.
  - destruct (String.eqb_spec k k'); congruence.
  - destruct (String.eqb_spec k' k0) as [->|Hk]; simpl.
    + destruct (String.eqb_spec k k0); congruence.
    + destruct (String.eqb_spec k k0); auto.
Qed.

Lemma dict_get_None (k : string) (d : dict) :
  dict_get k d = None <-> existsb (String.eqb k) (keys d) = false.
Proof.
  induction d as [|[k' v'] rest IH]; simpl.
  - tauto.
  - destruct (String.eqb k k'); simpl; [split; discriminate | exact IH].
Qed.

Lemma dict_mem_In (k : string) (d : dict) :
  dict_mem k d = true <-> In k (keys d).
Proof.
  unfold dict_mem. induction d as [|[k' v'] rest IH]; simpl.
  - split; [discriminate | tauto].
  - destruct (String.eqb_spec k k') as [->|Hne].
    + split; auto.
    + rewrite IH. split; [auto | intros [H|H]; congruence].
Qed.

Lemma dict_get_In (k : string) (d : dict) :
  In k (keys d) <-> exists v, dict_get k d = Some v.
Proof.
  rewrite <- dict_mem_In. unfold dict_mem.
  destruct (dict_get k d) as [v|]; split; eauto; try discriminate.
  intros [v H]; discriminate.
Qed.

(** What the merged dictionary holds at each key. *)
Lemma dict_get_deep_merge (source dest : dict) (k : string) :
  unique (keys source) = true ->
  dict_get k (deep_merge dest source)
  = match dict_get k source with
    | Some v =>
        Some (match dict_get k dest, v with
              | Some (YDict sub), YDict src => YDict (deep_merge sub src)
              | _, _ => v
              end)
    | None => dict_get k dest
    end.
Proof.
  revert dest. induction source as [|[k0 v0] rest IH]; intros dest Hu.
  - reflexivity.
  - simpl in Hu. apply andb_true_iff in Hu as [Hfresh Hu].
    apply negb_true_iff in Hfresh.
    rewrite deep_merge_cons, (IH _ Hu). simpl.
    rewrite merge_entry_set.
    destruct (String.eqb_spec k k0) as [->|Hne].
    + apply dict_get_None in Hfresh. rewrite Hfresh.
      apply dict_get_set_same.
    + rewrite (dict_get_set_other _ _ _ _ Hne). reflexivity.
Qed.



(** *** Unique keys and structural facts *)

Lemma unique_NoDup (ks : list string) : unique ks = true <-> NoDup ks.
Proof.
  induction ks as [|k rest IH]; simpl.
  - split; [constructor | reflexivity].
  - rewrite andb_true_iff, negb_true_iff, IH. split.
    + intros [Hf Hn]. constructor; [|exact Hn]. intro Hin.
      assert (existsb (String.eqb k) rest = true) as E.
      { apply existsb_exists. exists k. split; [exact Hin | apply String.eqb_refl]. }
      congruence.
    + intro H. inversion H as [|? ? Hnot Hn]; subst. split; [|exact Hn].
      destruct (existsb (String.eqb k) rest) eqn:E; [|reflexivity].
      apply existsb_exists in E as [x [Hin Hx]].
      apply String.eqb_eq in Hx. subst. contradiction.
Qed.

Lemma dict_get_Some_In (k : string) (v : value) (d : dict) :
  dict_get k d = Some v -> In (k, v) d.
Proof.
  induction d as [|[k' v'] rest IH]; simpl; [discriminate|].
  destruct (String.eqb_spec k k') as [->|Hne].
  - intros [= ->]. now left.
  - auto.
Qed.

Lemma In_dict_get (k : string) (v : value) (d : dict) :
  unique (keys d) = true -> In (k, v) d -> dict_get k d = Some v.
Proof.
  induction d as [|[k' v'] rest IH]; simpl; intros Hu Hin; [contradiction|].
  apply andb_true_iff in Hu as [Hf Hu]. apply negb_true_iff in Hf.
  destruct Hin as [Heq|Hin].
  - inversion Heq; subst. now rewrite String.eqb_refl.
  - destruct (String.eqb_spec k k') as [->|Hne]; [|auto].
    exfalso. apply dict_get_None in Hf.
    apply IH in Hin; [congruence | exact Hu].
Qed.

Lemma dict_get_merge_entry_other (k k0 : string) (v0 : value) (dest : dict) :
  k <> k0 -> dict_get k (merge_entry dest k0 v0) = dict_get k dest.
Proof. intro Hne. rewrite merge_entry_set. now apply dict_get_set_other. Qed.

Lemma keys_dict_set (k : string) (v : value) (d : dict) :
  keys (dict_set k v d) = if dict_mem k d then keys d else keys d ++ [k].
Proof.
  unfold dict_mem. induction d as [|[k' v'] rest IH]; simpl; [reflexivity|].
  destruct (String.eqb k k') eqn:E; simpl; [reflexivity|].
  rewrite IH. destruct (dict_get k rest); reflexivity.
Qed.

Lemma keys_merge_entry (k0 : string) (v0 : value) (dest : dict) :
  keys (merge_entry dest k0 v0)
  = if dict_mem k0 dest then keys dest else keys dest ++ [k0].
Proof. rewrite merge_entry_set. apply keys_dict_set. Qed.

(** The keys of the result, in order: those of [dest], then the new keys
    of [source] in the order [source] lists them. *)
Lemma keys_deep_merge (source dest : dict) :
  unique (keys source) = true ->
  keys (deep_merge dest source)
  = keys dest ++ filter (fun k => negb (dict_mem k dest)) (keys source).
Proof.
  revert dest. induction source as [|[k0 v0] rest IH]; intros dest Hu.
  - simpl. now rewrite app_nil_r.
  - simpl in Hu. apply andb_true_iff in Hu as [Hf Hu]. apply negb_true_iff in Hf.
    rewrite deep_merge_cons, (IH _ Hu).
    rewrite (filter_ext_in
               (fun k => negb (dict_mem k (merge_entry dest k0 v0)))
               (fun k => negb (dict_mem k dest))).
    + rewrite keys_merge_entry. simpl.
      destruct (dict_mem k0 dest); simpl; [reflexivity|].
      now rewrite <- app_assoc.
    + intros k Hk. unfold dict_mem.
      rewrite dict_get_merge_entry_other; [reflexivity|].
      intros ->. apply dict_get_None in Hf.
      apply dict_get_In in Hk as [v Hv]. congruence.
Qed.

Lemma unique_keys_deep_merge (source dest : dict) :
  unique (keys dest) = true -> unique (keys source) = true ->
  unique (keys (deep_merge dest source)) = true.
Proof.
  intros Hd Hs. rewrite (keys_deep_merge _ _ Hs). apply unique_NoDup.
  apply unique_NoDup in Hd, Hs. apply NoDup_app; [exact Hd | now apply NoDup_filter |].
  intros k Hk Hf. apply filter_In in Hf as [_ Hf].
  apply dict_mem_In in Hk. rewrite Hk in Hf. discriminate.
Qed.

(** Merging into an empty dictionary copies the source. *)
Lemma deep_merge_fresh (source dest : dict) :
  unique (keys source) = true ->
  (forall k, In k (keys source) -> dict_mem k dest = false) ->
  deep_merge dest source = dest ++ source.
Proof.
  revert dest. induction source as [|[k0 v0] rest IH]; intros dest Hu Hfresh.
  - simpl. now rewrite app_nil_r.
  - simpl in Hu. apply andb_true_iff in Hu as [Hf Hu]. apply negb_true_iff in Hf.
    rewrite deep_merge_cons.
    assert (merge_entry dest k0 v0 = dest ++ [(k0, v0)]) as ->.
    { assert (dict_get k0 dest = None) as Hn.
      { specialize (Hfresh k0 (or_introl eq_refl)). unfold dict_mem in Hfresh.
        destruct (dict_get k0 dest); [discriminate | reflexivity]. }
      unfold merge_entry. rewrite Hn. clear -Hn.
      induction dest as [|[k' v'] d IHd]; simpl in *; [reflexivity|].
      destruct (String.eqb k0 k'); [discriminate|]. now rewrite IHd. }
    rewrite IH; [now rewrite <- app_assoc | exact Hu |].
    intros k Hk. unfold dict_mem.
    destruct (dict_get k (dest ++ [(k0, v0)])) as [v|] eqn:E; [|reflexivity].
    exfalso. apply dict_get_Some_In in E. apply in_app_or in E as [E|[E|[]]].
    + specialize (Hfresh k (or_intror Hk)). unfold dict_mem in Hfresh.
      apply (in_map fst) in E. simpl in E. apply dict_get_In in E as [w Hw].
      rewrite Hw in Hfresh. discriminate.
    + inversion E; subst. apply dict_get_None in Hf.
      apply dict_get_In in Hk as [w Hw]. congruence.
Qed.

Lemma deep_merge_empty (source : dict) :
  unique (keys source) = true -> deep_merge [] source = source.
Proof. intro Hu. now apply (deep_merge_fresh source []). Qed.

(** *** Well-formed documents *)

(** Induction over documents that reaches the elements of lists and the
    values of mappings. *)
Lemma value_nested_ind (P : value -> Prop) :
  P YNull ->
  (forall b, P (YBool b)) ->
  (forall z, P (YInt z)) ->
  (forall f, P (YFloat f)) ->
  (forall s, P (YStr s)) ->
  (forall xs, Forall P xs -> P (YList xs)) ->
  (forall d, Forall (fun kv => P (snd kv)) d -> P (YDict d)) ->
  forall v, P v.
Proof.
  intros HN HB HI HF HS HL HD.
  fix IH 1.
  intros [| b | z | f | s | xs | d];
    [exact HN | apply HB | apply HI | apply HF | apply HS | apply HL | apply HD].
  - induction xs as [|x xs IHxs]; constructor; [apply IH | exact IHxs].
  - induction d as [|[k v] d IHd]; constructor; [apply IH | exact IHd].
Qed.

Lemma well_formed_dict (d : dict) :
  well_formed (YDict d) = true
  <-> unique (keys d) = true /\ forall k v, In (k, v) d -> well_formed v = true.
Proof.
  change (well_formed (YDict d))
    with (unique (map fst d) && forallb (fun kv => well_formed (snd kv)) d).
  rewrite andb_true_iff, forallb_forall. unfold keys.
  split; intros [Hu H]; split; auto.
  - intros k v Hin. apply (H (k, v) Hin).
  - intros [k v] Hin. apply (H k v Hin).
Qed.

Lemma well_formed_deep_merge (source dest : dict) :
  well_formed (YDict dest) = true -> well_formed (YDict source) = true ->
  well_formed (YDict (deep_merge dest source)) = true.
Proof.
  enough (forall sv, match sv with
                     | YDict source =>
                         forall dest, well_formed (YDict dest) = true ->
                                      well_formed sv = true ->
                                      well_formed (YDict (deep_merge dest source)) = true
                     | _ => True
                     end) as H.
  { exact (H (YDict source) dest). }
  clear dest source.
  induction sv as [| | | | | |source IH] using value_nested_ind; auto.
  intros dest Hd Hs.
  apply well_formed_dict in Hd as [Hdu Hdv].
  apply well_formed_dict in Hs as [Hsu Hsv].
  apply well_formed_dict. split; [now apply unique_keys_deep_merge|].
  intros k v Hin.
  apply In_dict_get in Hin; [|now apply unique_keys_deep_merge].
  rewrite (dict_get_deep_merge _ _ _ Hsu) in Hin.
  destruct (dict_get k source) as [v'|] eqn:Es.
  - apply dict_get_Some_In in Es.
    assert (well_formed v' = true) as Hv' by eauto.
    destruct (dict_get k dest) as [old|] eqn:Ed;
      [|injection Hin as <-; exact Hv'].
    apply dict_get_Some_In in Ed.
    destruct old; try (injection Hin as <-; exact Hv').
    destruct v'; try (injection Hin as <-; exact Hv').
    injection Hin as <-.
    rewrite Forall_forall in IH. apply (IH _ Es); eauto.
  - apply dict_get_Some_In in Hin. eauto.
Qed.

(** *** Python's equality on well-formed documents *)

Lemma all2_refl {A : Type} (eqb : A -> A -> bool) (xs : list A) :
  Forall (fun x => eqb x x = true) xs -> all2 eqb xs xs = true.
Proof.
  induction 1 as [|x xs Hx _ IH]; simpl; [reflexivity|].
  now rewrite Hx, IH.
Qed.

Lemma dict_eqb_spec (d1 d2 : dict) :
  dict_eqb d1 d2 = true
  <-> List.length d1 = List.length d2
      /\ forall k v, In (k, v) d1 ->
           exists w, dict_get k d2 = Some w /\ value_eqb v w = true.
Proof.
  unfold dict_eqb.
  change (value_eqb (YDict d1) (YDict d2))
    with (Nat.eqb (List.length d1) (List.length d2) &&
          forallb (fun kv =>
                     match dict_get (fst kv) d2 with
                     | Some w => value_eqb (snd kv) w
                     | None => false
                     end) d1).
  rewrite andb_true_iff, Nat.eqb_eq, forallb_forall.
  split; intros [Hl H]; split; auto.
  - intros k v Hin. specialize (H (k, v) Hin). simpl in H.
    destruct (dict_get k d2) as [w|]; [eauto | discriminate].
  - intros [k v] Hin. simpl. destruct (H k v Hin) as [w [-> Hw]]. exact Hw.
Qed.

Lemma value_eqb_refl (v : value) :
  well_formed v = true -> value_eqb v v = true.
Proof.
  induction v as [| b | z | f | s | xs IH | d IH] using value_nested_ind;
    intro Hwf.
  - reflexivity.
  - apply Bool.eqb_reflx.
  - apply Z.eqb_refl.
  - apply FloatAxioms.Leibniz.eqb_spec. reflexivity.
  - apply String.eqb_refl.
  - change (all2 value_eqb xs xs = true). apply all2_refl.
    change (forallb well_formed xs = true) in Hwf.
    rewrite forallb_forall in Hwf. rewrite Forall_forall in *. auto.
  - apply well_formed_dict in Hwf as [Hu Hv].
    apply (dict_eqb_spec d d). split; [reflexivity|].
    intros k v Hin. exists v. split; [now apply In_dict_get|].
    rewrite Forall_forall in IH. apply (IH (k, v) Hin). eauto.
Qed.

(** *** Listing the entries in another order *)

Lemma unique_keys_perm (s s' : dict) :
  Permutation s s' -> unique (keys s) = true -> unique (keys s') = true.
Proof.
  intros Hp Hu. apply unique_NoDup. apply unique_NoDup in Hu.
  apply (Permutation_NoDup (Permutation_map fst Hp) Hu).
Qed.

Lemma dict_get_perm (s s' : dict) (k : string) :
  Permutation s s' -> unique (keys s) = true -> dict_get k s = dict_get k s'.
Proof.
  intros Hp Hu. pose proof (unique_keys_perm _ _ Hp Hu) as Hu'.
  destruct (dict_get k s) as [v|] eqn:E.
  - symmetry. apply In_dict_get; [exact Hu'|].
    apply (Permutation_in _ Hp). now apply dict_get_Some_In.
  - destruct (dict_get k s') as [w|] eqn:E'; [|reflexivity].
    apply dict_get_Some_In in E'.
    apply (Permutation_in _ (Permutation_sym Hp)) in E'.
    apply In_dict_get in E'; [congruence | exact Hu].
Qed.

Lemma filter_perm_length {A : Type} (f : A -> bool) (l l' : list A) :
  Permutation l l' -> List.length (filter f l) = List.length (filter f l').
Proof.
  induction 1 as [| x l l' _ IH | x y l | l l' l'' _ IH1 _ IH2]; simpl.
  - reflexivity.
  - destruct (f x); simpl; congruence.
  - destruct (f x), (f y); reflexivity.
  - congruence.
Qed.

Lemma keys_app_entry (pre post : dict) (k : string) (v v' : value) :
  keys (pre ++ (k, v) :: post) = keys (pre ++ (k, v') :: post).
Proof. unfold keys. now rewrite !map_app. Qed.

Lemma dict_get_app_entry_other (pre post : dict) (k k0 : string) (v v' : value) :
  k0 <> k ->
  dict_get k0 (pre ++ (k, v) :: post) = dict_get k0 (pre ++ (k, v') :: post).
Proof.
  intro Hne. induction pre as [|[k1 v1] pre IH]; simpl.
  - destruct (String.eqb_spec k0 k); [contradiction | reflexivity].
  - now rewrite IH.
Qed.

Lemma dict_get_app_entry_same (pre post : dict) (k : string) (v : value) :
  unique (keys (pre ++ (k, v) :: post)) = true ->
  dict_get k (pre ++ (k, v) :: post) = Some v.
Proof. intro Hu. apply In_dict_get; [exact Hu | apply in_elt]. Qed.

Lemma length_keys (d : dict) : List.length (keys d) = List.length d.
Proof. apply length_map. Qed.

Lemma keys_permuted (s s' : dict) :
  permuted_level s s' -> Permutation (keys s) (keys s').
Proof.
  intros [a b Hp | pre post k sub sub' _].
  - now apply Permutation_map.
  - now rewrite (keys_app_entry _ _ _ _ (YDict sub')).
Qed.

Lemma unique_keys_permuted (s s' : dict) :
  permuted_level s s' -> unique (keys s) = true -> unique (keys s') = true.
Proof.
  intros Hp Hu. apply unique_NoDup. apply unique_NoDup in Hu.
  apply (Permutation_NoDup (keys_permuted _ _ Hp) Hu).
Qed.

(** C8.  The deep merge does not depend on the order in which the keys
    of one level of [source] are listed: for well-formed documents (unique
    keys in every mapping), listing the entries of one level of [source]
    in another order gives a merged dictionary that is equal as a Python
    dict (same keys, equal values, whatever the insertion order). *)
Theorem deep_merge_order_independent (dest source source' : dict) :
  well_formed (YDict dest) = true ->
  well_formed (YDict source) = true ->
  permuted_level source source' ->
  dict_eqb (deep_merge dest source) (deep_merge dest source') = true.
Proof.
  intros Hd Hs Hp. revert dest Hd Hs.
  induction Hp as [s s' Hp | pre post k sub sub' Hsub IH]; intros dest Hd Hs.
  - pose proof (well_formed_deep_merge _ _ Hd Hs) as Hr.
    apply well_formed_dict in Hr as [Hru Hrv].
    apply well_formed_dict in Hs as [Hsu Hsv].
    pose proof (unique_keys_perm _ _ Hp Hsu) as Hsu'.
    apply dict_eqb_spec. split.
    + rewrite <- !length_keys, (keys_deep_merge _ _ Hsu), (keys_deep_merge _ _ Hsu').
      rewrite !length_app. f_equal.
      apply filter_perm_length. now apply Permutation_map.
    + intros k v Hin. exists v. split; [|eauto using value_eqb_refl].
      apply In_dict_get in Hin; [|exact Hru].
      rewrite (dict_get_deep_merge _ _ _ Hsu) in Hin.
      rewrite (dict_get_deep_merge _ _ _ Hsu').
      now rewrite <- (dict_get_perm _ _ k Hp Hsu).
  - pose proof (well_formed_deep_merge _ _ Hd Hs) as Hr.
    apply well_formed_dict in Hr as [Hru Hrv].
    pose proof Hd as Hd0.
    apply well_formed_dict in Hd as [Hdu Hdv].
    apply well_formed_dict in Hs as [Hsu Hsv].
    assert (unique (keys (pre ++ (k, YDict sub') :: post)) = true) as Hsu'.
    { now rewrite (keys_app_entry _ _ _ _ (YDict sub)). }
    assert (well_formed (YDict sub) = true) as Hwsub.
    { apply (Hsv k). apply in_elt. }
    apply dict_eqb_spec. split.
    + rewrite <- !length_keys, (keys_deep_merge _ _ Hsu), (keys_deep_merge _ _ Hsu').
      now rewrite (keys_app_entry _ _ _ _ (YDict sub')).
    + intros k0 v Hin.
      apply In_dict_get in Hin; [|exact Hru].
      rewrite (dict_get_deep_merge _ _ _ Hsu) in Hin.
      rewrite (dict_get_deep_merge _ _ _ Hsu').
      destruct (String.eqb_spec k0 k) as [->|Hne].
      * rewrite (dict_get_app_entry_same _ _ _ _ Hsu) in Hin.
        rewrite (dict_get_app_entry_same _ _ _ _ Hsu').
        assert (dict_eqb sub sub' = true) as Hplain.
        { pose proof Hwsub as Hw. apply well_formed_dict in Hw as [Hu _].
          rewrite <- (deep_merge_empty sub Hu) at 1.
          rewrite <- (deep_merge_empty sub'
                        (unique_keys_permuted _ _ Hsub Hu)).
          apply (IH []); [reflexivity | exact Hwsub]. }
        destruct (dict_get k dest) as [old|] eqn:Ed;
          [|injection Hin as <-; eauto].
        apply dict_get_Some_In in Ed.
        destruct old; injection Hin as <-; eauto.
      * rewrite <- (dict_get_app_entry_other pre post k k0 (YDict sub) (YDict sub') Hne).
        exists v. split; [exact Hin|].
        apply value_eqb_refl. apply (Hrv k0).
        apply dict_get_Some_In.
        now rewrite (dict_get_deep_merge _ _ _ Hsu).
Qed.

(** Two new keys, listed in either order: the results are equal
    dictionaries although their insertion orders differ. *)
Lemma deep_merge_order_independent_witness :
  dict_eqb
    (deep_merge [("c", YDict [("x", YInt 1)])]
       [("a", YInt 2); ("b", YStr "z"); ("c", YDict [("y", YInt 3)])])
    (deep_merge [("c", YDict [("x", YInt 1)])]
       [("b", YStr "z"); ("a", YInt 2); ("c", YDict [("y", YInt 3)])])
  = true.
Proof.
  apply deep_merge_order_independent; [reflexivity | reflexivity |].
  apply permuted_here. apply perm_swap.
Defined.

Example deep_merge_insertion_order :
  deep_merge [] [("a", YInt 2); ("b", YInt 3)] = [("a", YInt 2); ("b", YInt 3)]
  /\ deep_merge [] [("b", YInt 3); ("a", YInt 2)] = [("b", YInt 3); ("a", YInt 2)].
Proof. split; reflexivity. Qed.

Example deep_merge_nested_order :
  dict_eqb
    (deep_merge [("g", YDict [("p", YInt 0)])]
       [("g", YDict [("q", YInt 1); ("r", YInt 2)])])
    (deep_merge [("g", YDict [("p", YInt 0)])]
       [("g", YDict [("r", YInt 2); ("q", YInt 1)])])
  = true.
Proof. reflexivity. Qed.

Example merge_disjoint :
  deep_merge [("a", YDict [("x", YInt 1)])] [("a", YDict [("y", YInt 2)])]
  = [("a", YDict [("x", YInt 1); ("y", YInt 2)])].
Proof. reflexivity. Qed.

End YamlFacts.

(** ** Properties of the configuration manager *)

Module ConfigFacts.

Import Config Sample.

Section Loading.

Variable DEFAULT_CONFIG_FILE : string.
Variable open_read : string -> result string.
Variable safe_load : string -> result value.

Local Abbreviation load_default :=
  (_load_default_config DEFAULT_CONFIG_FILE open_read safe_load).
Local Abbreviation load_custom := (_load_custom_config open_read safe_load).
Local Abbreviation unreadable := (Config.unreadable open_read safe_load).

Lemma load_default_fatal (s : state) (e : exn) :
  is_Exception e = true ->
  unreadable DEFAULT_CONFIG_FILE e ->
  load_default s
  = (Raise (SystemExit 1),
     mkState (config s) (env s)
       (log s ++ [mkLog ERROR "Error loading default config: " (Some e)])
       (files s)).
Proof.
  intros He [Hopen | [content [Hopen Hparse]]];
    unfold _load_default_config, try_except, mbind, lift;
    rewrite Hopen; simpl; [|rewrite Hparse; simpl];
    rewrite He; reflexivity.
Qed.

Lemma load_default_ok (s : state) (content : string) (doc : value) :
  open_read DEFAULT_CONFIG_FILE = Ok content ->
  safe_load content = Ok doc ->
  load_default s
  = (Ok tt,
     mkState doc (env s)
       (log s ++ [mkLog DEBUG "Loaded default configuration" None]) (files s)).
Proof.
  intros Hopen Hparse.
  unfold _load_default_config, try_except, mbind, lift.
  rewrite Hopen. simpl. rewrite Hparse. reflexivity.
Qed.

Lemma load_custom_absorbed (s : state) (path : string) (e : exn) :
  is_Exception e = true ->
  unreadable path e ->
  load_custom path s
  = (Ok tt,
     mkState (config s) (env s)
       (log s ++ [mkLog ERROR ("Error loading custom config from " ++ path ++ ": ")
                    (Some e)])
       (files s)).
Proof.
  intros He [Hopen | [content [Hopen Hparse]]];
    unfold _load_custom_config, try_except, mbind, lift;
    rewrite Hopen; simpl; [|rewrite Hparse; simpl];
    rewrite He; reflexivity.
Qed.

(** C3.  When the base document is missing or unparsable, loading it
    ends the process with exit status 1 (not zero).  When the base
    document loads and the override document is missing or unparsable,
    loading the override returns normally, the configuration is the base
    document, untouched, and the error is logged. *)
Theorem load_failure_policy :
  (forall s e,
      is_Exception e = true ->
      unreadable DEFAULT_CONFIG_FILE e ->
      exists s',
        load_default s = (Raise (SystemExit 1), s')
        /\ (1 <> 0)%Z
        /\ config s' = config s
        /\ forall config_file env_config,
             fst (load DEFAULT_CONFIG_FILE open_read safe_load config_file env_config s)
             = Raise (SystemExit 1))
  /\ (forall s path e,
        is_Exception e = true ->
        unreadable path e ->
        exists s',
          load_custom path s = (Ok tt, s')
          /\ config s' = config s
          /\ log s'
             = log s ++ [mkLog ERROR ("Error loading custom config from " ++ path ++ ": ")
                           (Some e)])
  /\ (forall s content base path env_config e,
        open_read DEFAULT_CONFIG_FILE = Ok content ->
        safe_load content = Ok base ->
        path <> "" ->
        is_Exception e = true ->
        unreadable path e ->
        exists s',
          load DEFAULT_CONFIG_FILE open_read safe_load (Some path) env_config s
          = (Ok tt, s')
          /\ config s' = base
          /\ In (mkLog ERROR ("Error loading custom config from " ++ path ++ ": ")
                   (Some e)) (log s')).
Proof.
  split; [|split].
  - intros s e He Hbad. eexists. rewrite (load_default_fatal s e He Hbad).
    split; [reflexivity|]. split; [discriminate|]. split; [reflexivity|].
    intros config_file env_config.
    unfold load, mbind at 1, set_config. unfold mbind at 1.
    now rewrite (load_default_fatal _ e He Hbad).
  - intros s path e He Hbad. eexists. rewrite (load_custom_absorbed s path e He Hbad).
    repeat split.
  - intros s content base path env_config e Hopen Hparse Hpath He Hbad.
    unfold load, mbind at 1, set_config. unfold mbind at 1.
    rewrite (load_default_ok _ content base Hopen Hparse).
    assert (truthy (Some path) = true) as ->.
    { simpl. destruct (String.eqb_spec path ""); [contradiction | reflexivity]. }
    rewrite (load_custom_absorbed _ path e He Hbad). simpl.
    eexists. split; [reflexivity|]. split; [reflexivity|].
    apply in_or_app. right. now left.
Qed.

End Loading.

Lemma demo_broken_unreadable :
  Config.unreadable demo_open demo_safe_load "broken.yml" YAMLError.
Proof. right. exists "{unclosed". split; reflexivity. Qed.

Lemma demo_missing_unreadable :
  Config.unreadable demo_open demo_safe_load "missing.yml" OSError.
Proof. left. reflexivity. Qed.

(** A valid base document with a malformed override: the base document is
    the configuration, and the run goes on. *)
Lemma load_failure_policy_witness :
  exists s',
    load demo_default demo_open demo_safe_load (Some "broken.yml") None
      (mkState YNull "local" [] [])
    = (Ok tt, s')
    /\ config s' = demo_doc
    /\ In (mkLog ERROR "Error loading custom config from broken.yml: " (Some YAMLError))
         (log s').
Proof.
  apply (proj2 (proj2 (load_failure_policy demo_default demo_open demo_safe_load))
           (mkState YNull "local" [] []) "default document" demo_doc "broken.yml" None
           YAMLError);
    [reflexivity | reflexivity | discriminate | reflexivity
    | exact demo_broken_unreadable].
Defined.

Example load_missing_base :
  fst (_load_default_config "nowhere.yml" demo_open demo_safe_load
         (mkState (YDict []) "local" [] []))
  = Raise (SystemExit 1).
Proof. reflexivity. Qed.

(** *** Accessors *)

Lemma subscript_dict (d : dict) (k : string) (v : value) :
  dict_get k d = Some v -> subscript (YDict d) k = Ok v.
Proof. intro H. simpl. now rewrite H. Qed.

Lemma subscript_missing (d : dict) (k : string) :
  dict_get k d = None -> subscript (YDict d) k = Raise (KeyError k).
Proof. intro H. simpl. now rewrite H. Qed.

(** What [get_matlab_path] computes.  When the environment mapping
    [config["global"]["matlab"]] has a ["local"] entry, [get_matlab_path]
    returns the entry of the current environment when there is one and
    the ["local"] entry otherwise.  The ["local"] entry is looked up
    before [get] is called: without it the call raises [KeyError], whether
    or not the environment has an entry. *)
Theorem get_matlab_path_fallback (s : state) (cfg g m : dict) :
  config s = YDict cfg ->
  dict_get "global" cfg = Some (YDict g) ->
  dict_get "matlab" g = Some (YDict m) ->
  (forall loc,
      dict_get "local" m = Some loc ->
      get_matlab_path s
      = Ok (match dict_get (env s) m with
            | Some path => path
            | None => loc
            end))
  /\ (dict_get "local" m = None ->
      get_matlab_path s = Raise (KeyError "local")).
Proof.
  intros Hc Hg Hm. unfold get_matlab_path. rewrite Hc.
  rewrite !(subscript_dict _ _ _ Hg). cbn [bind].
  rewrite !(subscript_dict _ _ _ Hm). cbn [bind attr_get].
  split.
  - intros loc Hl. now rewrite (subscript_dict _ _ _ Hl).
  - intro Hl. now rewrite (subscript_missing _ _ Hl).
Qed.

Lemma get_matlab_path_fallback_witness :
  get_matlab_path (demo_state "local") = Ok (YStr "/usr/local/bin/matlab")
  /\ get_matlab_path (demo_state "unknown") = Ok (YStr "/usr/local/bin/matlab")
  /\ get_matlab_path (demo_state "server") = Ok (YStr "/opt/matlab/bin/matlab").
Proof.
  split; [|split];
    refine (proj1 (get_matlab_path_fallback (demo_state _) _ _ _ eq_refl eq_refl eq_refl)
              _ eq_refl).
Defined.

(** C4.  The entry of the requested environment is to be returned when it
    is present.  Here the environment ["server"] has an entry and
    ["local"] has none: the fallback argument of [get] is evaluated first,
    and the call raises [KeyError] instead of returning the entry. *)
Lemma get_matlab_path_needs_local :
  subscript (config no_local_state) "global"
  = Ok (YDict [("matlab", YDict [("server", YStr "/opt/matlab/bin/matlab")])])
  /\ env no_local_state = "server"
  /\ dict_get "server" [("server", YStr "/opt/matlab/bin/matlab")]
     = Some (YStr "/opt/matlab/bin/matlab")
  /\ get_matlab_path no_local_state = Raise (KeyError "local")
  /\ get_matlab_path no_local_state <> Ok (YStr "/opt/matlab/bin/matlab").
Proof. repeat split; discriminate. Qed.

Lemma get_implementation_config_found (s : state) (cfg impls : dict)
    (name : string) (profile : value) :
  config s = YDict cfg ->
  dict_get "implementations" cfg = Some (YDict impls) ->
  dict_get name impls = Some profile ->
  get_implementation_config name s = (Ok profile, s).
Proof.
  intros Hc Hi Hp.
  unfold get_implementation_config, mbind, get_config, lift.
  rewrite Hc. rewrite !(subscript_dict _ _ _ Hi).
  cbn [contains]. unfold dict_mem. rewrite Hp. cbn beta iota.
  rewrite Hc, (subscript_dict _ _ _ Hi).
  now rewrite (subscript_dict _ _ _ Hp).
Qed.

Lemma get_implementation_config_unknown (s : state) (cfg impls : dict)
    (name : string) :
  config s = YDict cfg ->
  dict_get "implementations" cfg = Some (YDict impls) ->
  dict_get name impls = None ->
  get_implementation_config name s = (Ok (YDict []), warn_unknown s name).
Proof.
  intros Hc Hi Hp.
  unfold get_implementation_config, mbind, get_config, lift.
  rewrite Hc. rewrite !(subscript_dict _ _ _ Hi).
  cbn [contains]. unfold dict_mem. rewrite Hp. reflexivity.
Qed.

(** C6.  With a mapping under ["implementations"],
    [get_implementation_config] returns the entry of a known name and
    leaves the state alone; for an unknown name it returns the empty
    mapping and logs one warning.  The other accessors raise [KeyError]
    when the key they look up is missing. *)
Theorem get_implementation_config_lenient (s : state) (cfg impls : dict)
    (name : string) :
  config s = YDict cfg ->
  dict_get "implementations" cfg = Some (YDict impls) ->
  (forall profile,
      dict_get name impls = Some profile ->
      get_implementation_config name s = (Ok profile, s))
  /\ (dict_get name impls = None ->
      get_implementation_config name s = (Ok (YDict []), warn_unknown s name))
  /\ (forall g,
        dict_get "global" cfg = Some (YDict g) ->
        dict_get "amica" g = None ->
        get_amica_params s = Raise (KeyError "amica"))
  /\ (forall p,
        dict_get "project" cfg = Some (YDict p) ->
        dict_get "structure" p = None ->
        get_project_structure s = Raise (KeyError "structure"))
  /\ (forall g e,
        dict_get "global" cfg = Some (YDict g) ->
        dict_get "eeglab" g = Some (YDict e) ->
        (dict_get "path" e = None ->
         get_eeglab_path s = Raise (KeyError "path"))
        /\ (dict_get "startup_options" e = None ->
            get_matlab_startup_options s = Raise (KeyError "startup_options"))).
Proof.
  intros Hc Hi. split; [|split; [|split; [|split]]].
  - intros profile Hp. now apply (get_implementation_config_found s cfg impls).
  - intro Hp. now apply (get_implementation_config_unknown s cfg impls).
  - intros g Hg Ha. unfold get_amica_params. rewrite Hc.
    rewrite (subscript_dict _ _ _ Hg). cbn [bind].
    now apply subscript_missing.
  - intros p Hp Hs. unfold get_project_structure. rewrite Hc.
    rewrite (subscript_dict _ _ _ Hp). cbn [bind].
    now apply subscript_missing.
  - intros g e Hg He.
    unfold get_eeglab_path, get_matlab_startup_options. rewrite Hc.
    rewrite !(subscript_dict _ _ _ Hg). cbn [bind].
    rewrite !(subscript_dict _ _ _ He). cbn [bind].
    split; intro H; now apply subscript_missing.
Qed.

Lemma get_implementation_config_lenient_witness :
  get_implementation_config "serial" (demo_state "local")
  = (Ok (YDict []), warn_unknown (demo_state "local") "serial").
Proof.
  refine (proj1 (proj2 (get_implementation_config_lenient (demo_state "local")
                          _ _ "serial" eq_refl eq_refl)) eq_refl).
Defined.

Example get_implementation_config_known :
  get_implementation_config "parallel" (demo_state "local")
  = (Ok (YDict [("max_threads", YInt 8)]), demo_state "local").
Proof. reflexivity. Qed.

(** *** The exported subset *)

Lemma get_implementation_config_keeps_config (name : string) (s : state) :
  config (snd (get_implementation_config name s)) = config s.
Proof.
  unfold get_implementation_config, mbind, get_config, lift, logger, ret.
  cbn beta iota.
  destruct (subscript (config s) "implementations") as [impls|e] eqn:E;
    [|reflexivity].
  destruct (contains name impls) as [[|]|e]; try reflexivity.
  rewrite E. destruct (subscript impls name); reflexivity.
Qed.

Lemma get_implementation_config_keeps_files (name : string) (s : state) :
  files (snd (get_implementation_config name s)) = files s.
Proof.
  unfold get_implementation_config, mbind, get_config, lift, logger, ret.
  cbn beta iota.
  destruct (subscript (config s) "implementations") as [impls|e] eqn:E;
    [|reflexivity].
  destruct (contains name impls) as [[|]|e]; try reflexivity.
  rewrite E. destruct (subscript impls name); reflexivity.
Qed.

Lemma get_eeglab_path_config (s s' : state) :
  config s' = config s -> get_eeglab_path s' = get_eeglab_path s.
Proof. intro H. unfold get_eeglab_path. now rewrite H. Qed.

Lemma get_project_structure_config (s s' : state) :
  config s' = config s -> get_project_structure s' = get_project_structure s.
Proof. intro H. unfold get_project_structure. now rewrite H. Qed.

(** What [matlab_config] holds when it is built. *)
Lemma matlab_config_contents (implementation : string) (s s' : state) (cfg : dict) :
  matlab_config implementation s = (Ok cfg, s') ->
  exists amica profile eeglab,
    get_amica_params s = Ok amica
    /\ get_implementation_config implementation s = (Ok profile, s')
    /\ get_eeglab_path s = Ok eeglab
    /\ (if String.eqb implementation "strengthen"
        then exists project,
            get_project_structure s = Ok project
            /\ cfg = [("amica", amica); ("implementation", profile);
                      ("eeglab_path", eeglab); ("project", project)]
        else cfg = [("amica", amica); ("implementation", profile);
                    ("eeglab_path", eeglab)]).
Proof.
  unfold matlab_config, mbind, ret, reading.
  destruct (get_amica_params s) as [amica|e]; [|discriminate].
  pose proof (get_implementation_config_keeps_config implementation s) as Hcfg.
  destruct (get_implementation_config implementation s) as [[profile|e] s1];
    [|discriminate].
  simpl in Hcfg.
  rewrite (get_eeglab_path_config _ _ Hcfg).
  destruct (get_eeglab_path s) as [eeglab|e]; [|discriminate].
  destruct (String.eqb implementation "strengthen").
  - rewrite (get_project_structure_config _ _ Hcfg).
    destruct (get_project_structure s) as [project|e]; [|discriminate].
    intros [= <- <-]. exists amica, profile, eeglab.
    repeat split. exists project. split; reflexivity.
  - intros [= <- <-]. exists amica, profile, eeglab. repeat split.
Qed.

Section ExportSubset.

Variable json_dumps : value -> string.
Variable temp_name : list (string * string) -> string.

(** C7.  When [export_matlab_config] returns, the file it wrote holds
    the serialization of a mapping made of exactly the AMICA parameters
    under ["amica"], the selected implementation profile under
    ["implementation"], the EEGLAB path under ["eeglab_path"] and, if and
    only if the implementation is ["strengthen"], the project structure
    under ["project"]. *)
Theorem export_matlab_config_contents (implementation : string)
    (s s' : state) (name : string) :
  export_matlab_config json_dumps temp_name implementation s = (Ok name, s') ->
  exists amica profile eeglab extra,
    let cfg := [("amica", amica); ("implementation", profile);
                ("eeglab_path", eeglab)] ++ extra in
    get_amica_params s = Ok amica
    /\ fst (get_implementation_config implementation s) = Ok profile
    /\ get_eeglab_path s = Ok eeglab
    /\ name = temp_name (files s)
    /\ files s' = files s ++ [(name, json_dumps (YDict cfg))]
    /\ (implementation = "strengthen" ->
        exists project,
          get_project_structure s = Ok project
          /\ extra = [("project", project)])
    /\ (implementation <> "strengthen" -> extra = [])
    /\ (dict_mem "project" cfg = true <-> implementation = "strengthen").
Proof.
  unfold export_matlab_config, mbind at 1.
  destruct (matlab_config implementation s) as [[cfg|e] s1] eqn:Hm; [|discriminate].
  apply matlab_config_contents in Hm as (amica & profile & eeglab & Ha & Hi & He & Hc).
  unfold mbind, write_file, ret, reading. intros [= <- <-]. simpl files.
  pose proof (get_implementation_config_keeps_files implementation s) as Hf.
  rewrite Hi in Hf. simpl in Hf. rewrite Hf, Hi.
  destruct (String.eqb_spec implementation "strengthen") as [Heq|Hne].
  - destruct Hc as (project & Hp & ->).
    exists amica, profile, eeglab, [("project", project)]. cbv zeta.
    do 5 (split; [reflexivity || assumption|]).
    split; [eauto|]. split; [contradiction|].
    split; [intros _; exact Heq | reflexivity].
  - subst cfg. exists amica, profile, eeglab, []. cbv zeta.
    do 5 (split; [reflexivity || assumption|]).
    split; [contradiction|]. split; [reflexivity|].
    split; [discriminate | contradiction].
Qed.

End ExportSubset.

Lemma export_matlab_config_contents_witness :
  exists amica profile eeglab extra,
    get_amica_params (demo_state "local") = Ok amica
    /\ fst (get_implementation_config "strengthen" (demo_state "local")) = Ok profile
    /\ get_eeglab_path (demo_state "local") = Ok eeglab
    /\ "/tmp/tmp0001.json" = demo_temp (files (demo_state "local"))
    /\ files (mkState demo_doc "local" [] [("/tmp/tmp0001.json", "<json>")])
       = files (demo_state "local")
         ++ [("/tmp/tmp0001.json",
              demo_json (YDict ([("amica", amica); ("implementation", profile);
                                 ("eeglab_path", eeglab)] ++ extra)))]
    /\ ("strengthen" = "strengthen" ->
        exists project,
          get_project_structure (demo_state "local") = Ok project
          /\ extra = [("project", project)])
    /\ ("strengthen" <> "strengthen" -> extra = [])
    /\ (dict_mem "project"
          ([("amica", amica); ("implementation", profile);
            ("eeglab_path", eeglab)] ++ extra) = true
        <-> "strengthen" = "strengthen").
Proof.
  apply (export_matlab_config_contents demo_json demo_temp "strengthen"
           (demo_state "local")). reflexivity.
Defined.

Example matlab_config_parallel :
  fst (matlab_config "parallel" (demo_state "local"))
  = Ok [("amica", YDict [("max_iter", YInt 2000); ("num_models", YInt 1)]);
        ("implementation", YDict [("max_threads", YInt 8)]);
        ("eeglab_path", YStr "/opt/eeglab")].
Proof. reflexivity. Qed.

Example matlab_config_strengthen :
  fst (matlab_config "strengthen" (demo_state "local"))
  = Ok [("amica", YDict [("max_iter", YInt 2000); ("num_models", YInt 1)]);
        ("implementation", YDict [("use_cluster", YBool true)]);
        ("eeglab_path", YStr "/opt/eeglab");
        ("project", YDict [("raw_dir", YStr "raw")])].
Proof. reflexivity. Qed.

End ConfigFacts.

(** ** Properties of the elapsed-time aggregator *)

Module TotalTimeFacts.

Import TotalTime.

Lemma contains_index_of (c : ascii) (line : string) :
  contains c line = true ->
  exists i, index_of c line = Ok i /\ i < String.length line.
Proof.
  induction line as [|x rest IH]; simpl; [discriminate|].
  destruct (Ascii.eqb x c); simpl.
  - intros _. exists 0. split; [reflexivity | lia].
  - intro H. destruct (IH H) as [i [-> Hi]]. exists (S i). split; [reflexivity | lia].
Qed.

Lemma index_of_contains (c : ascii) (line : string) (i : nat) :
  index_of c line = Ok i -> contains c line = true.
Proof.
  revert i. induction line as [|x rest IH]; simpl; intros i; [discriminate|].
  destruct (Ascii.eqb x c); simpl; [reflexivity|].
  destruct (index_of c rest) as [j|e]; [|discriminate].
  intros _. now apply (IH j).
Qed.

Lemma index_of_raises (c : ascii) (line : string) (e : exn) :
  index_of c line = Raise e -> e = ValueError.
Proof.
  induction line as [|x rest IH]; simpl.
  - now intros [= <-].
  - destruct (Ascii.eqb x c); [discriminate|].
    destruct (index_of c rest) as [j|e']; [discriminate|].
    intros [= <-]. now apply IH.
Qed.

Lemma slice_empty (line : string) (start stop : nat) :
  stop <= start -> start <= String.length line -> slice line start stop = "".
Proof.
  unfold slice. intros Hle Hlen. replace (stop - start) with 0 by lia.
  clear Hle. revert line Hlen.
  induction start as [|n IH]; intros [|x rest] Hlen; simpl in *;
    try reflexivity; try lia.
  apply IH. lia.
Qed.

Lemma index_of_drop (c : ascii) (n : nat) (line : string) (j : nat) :
  index_of c line = Ok j -> n <= j -> index_of c (drop n line) = Ok (j - n).
Proof.
  revert line j. induction n as [|n IH]; intros line j Hj Hn.
  - rewrite Nat.sub_0_r. destruct line; exact Hj.
  - destruct line as [|x rest]; simpl in *; [discriminate|].
    destruct (Ascii.eqb x c); [injection Hj as <-; lia|].
    destruct (index_of c rest) as [j'|e] eqn:E; [|discriminate].
    injection Hj as <-. apply IH; [exact E | lia].
Qed.

Lemma substring_drop (n m : nat) (line : string) :
  substring 0 m (drop n line) = substring n m line.
Proof.
  revert line. induction n as [|n IH]; intros [|x rest]; simpl; try reflexivity.
  - destruct m; reflexivity.
  - apply IH.
Qed.

(** Where the first [s] comes after the first parenthesis, the slice the
    code takes is the token the specification describes. *)
Lemma spec_token_slice (line : string) (i j : nat) :
  index_of "(" line = Ok i -> index_of "s" line = Ok j -> i < j ->
  spec_token line = Some (slice line (i + 1) j).
Proof.
  intros Hi Hj Hlt. unfold spec_token, slice. rewrite Hi.
  rewrite (index_of_drop _ (i + 1) _ j Hj) by lia.
  now rewrite substring_drop.
Qed.

Section Facts.

Variable py_float : string -> option float.

Local Abbreviation parse_line := (TotalTime.parse_line py_float).
Local Abbreviation step := (TotalTime.step py_float).
Local Abbreviation scan := (TotalTime.scan py_float).
Local Abbreviation calculate_total_time := (TotalTime.calculate_total_time py_float).

Lemma parse_line_raises (line : string) (e : exn) :
  parse_line line = Raise e -> e = ValueError.
Proof.
  unfold TotalTime.parse_line.
  destruct (index_of "(" line) as [i|e1] eqn:E1; simpl.
  - destruct (index_of "s" line) as [j|e2] eqn:E2; simpl.
    + destruct (py_float _); [discriminate | now intros [= <-]].
    + intros [= <-]. now apply index_of_raises in E2.
  - intros [= <-]. now apply index_of_raises in E1.
Qed.

Lemma step_returns (total : pynum) (line : string) :
  returns (step total line).
Proof.
  unfold TotalTime.step, returns.
  destruct (contains "(" line && contains "s" line); [|eauto].
  destruct (parse_line line) as [t|e] eqn:E; [eauto|].
  apply parse_line_raises in E. subst e. simpl. eauto.
Qed.

Lemma scan_returns (lines : list string) (total : pynum) :
  returns (scan total lines).
Proof.
  revert total. induction lines as [|line rest IH]; intro total; simpl.
  - exists total. reflexivity.
  - destruct (step_returns total line) as [total' ->]. simpl. apply IH.
Qed.

Lemma step_guarded (total : pynum) (line : string) (i j : nat) :
  index_of "(" line = Ok i ->
  index_of "s" line = Ok j ->
  step total line
  = Ok (match py_float (strip (slice line (i + 1) j)) with
        | Some t => py_add total t
        | None => total
        end).
Proof.
  intros Hi Hj. unfold TotalTime.step, TotalTime.parse_line.
  rewrite (index_of_contains _ _ _ Hi), (index_of_contains _ _ _ Hj), Hi, Hj.
  simpl. destruct (py_float _); reflexivity.
Qed.

(** C2, as the code has it.  On a line that contains both ["("] and
    ["s"], the loop takes the slice from just after the first ["("] up to
    the first ["s"] of the whole line, strips it and hands it to [float]:
    the value is added to the total when [float] accepts the text, and
    the total is left as it is otherwise.  When that first ["s"] comes
    after the parenthesis, the slice is the text between the first ["("]
    and the first ["s"] following it. *)
Theorem step_extracts (total : pynum) (line : string) :
  contains "(" line = true ->
  contains "s" line = true ->
  exists i j,
    index_of "(" line = Ok i
    /\ index_of "s" line = Ok j
    /\ step total line
       = Ok (match py_float (strip (slice line (i + 1) j)) with
             | Some t => py_add total t
             | None => total
             end)
    /\ (i < j -> spec_token line = Some (slice line (i + 1) j)).
Proof.
  intros Hp Hs.
  destruct (contains_index_of _ _ Hp) as [i [Hi _]].
  destruct (contains_index_of _ _ Hs) as [j [Hj _]].
  exists i, j. repeat split; try assumption.
  - now apply step_guarded.
  - now apply spec_token_slice.
Qed.

(** C5.  [float] rejects the empty string.  On a line whose first ["("]
    comes after its first ["s"] the slice is empty, so such a line and a
    line whose token is no number fail at the same place, the call of
    [float]: the body of the [try] raises [ValueError], the handler
    skips the line, the total is unchanged and the scan goes on with the
    next line. *)
Theorem malformed_line_skipped (total : pynum) (line : string) (i j : nat)
    (rest : list string) :
  py_float "" = None ->
  index_of "(" line = Ok i ->
  index_of "s" line = Ok j ->
  j < i \/ py_float (strip (slice line (i + 1) j)) = None ->
  (j < i -> slice line (i + 1) j = "")
  /\ py_float (strip (slice line (i + 1) j)) = None
  /\ parse_line line = Raise ValueError
  /\ step total line = Ok total
  /\ scan total (line :: rest) = scan total rest.
Proof.
  intros Hempty Hi Hj Hbad.
  assert (j < i -> slice line (i + 1) j = "") as Hslice.
  { intro Hlt. apply slice_empty; [lia|].
    destruct (contains_index_of _ _ (index_of_contains _ _ _ Hi)) as [i' [Hi' Hlen]].
    rewrite Hi in Hi'. injection Hi' as <-. lia. }
  assert (py_float (strip (slice line (i + 1) j)) = None) as Hnone.
  { destruct Hbad as [Hlt|Hn]; [|exact Hn]. now rewrite (Hslice Hlt). }
  assert (step total line = Ok total) as Hstep.
  { now rewrite (step_guarded total line i j Hi Hj), Hnone. }
  repeat split; try assumption.
  - unfold TotalTime.parse_line. rewrite Hi, Hj. simpl. now rewrite Hnone.
  - simpl. now rewrite Hstep.
Qed.

(** C9.  The accumulator starts at the integer 0, an empty file leaves
    it there, and the result is the accumulated total divided by 3600:
    for an empty file exactly the float [0.0]. *)
Theorem empty_file_zero :
  scan (PInt 0) [] = Ok (PInt 0)
  /\ calculate_total_time [] = Ok 0%float
  /\ forall lines,
       calculate_total_time lines
       = (total <- scan (PInt 0) lines ;; Ok (PrimFloat.div (to_float total) 3600%float)).
Proof. repeat split. Qed.

(** C10.  Whatever the lines are, [calculate_total_time] returns a
    float: under the guard both [index] calls succeed, the body of the
    [try] can only raise [ValueError], which the handler catches, so no
    iteration raises. *)
Theorem calculate_total_time_returns :
  (forall c line, contains c line = true -> returns (index_of c line))
  /\ (forall line e, parse_line line = Raise e -> e = ValueError)
  /\ (forall total line, returns (step total line))
  /\ (forall lines, returns (calculate_total_time lines)).
Proof.
  split; [|split; [|split]].
  - intros c line H. destruct (contains_index_of _ _ H) as [i [Hi _]].
    now exists i.
  - apply parse_line_raises.
  - apply step_returns.
  - intro lines. unfold TotalTime.calculate_total_time.
    destruct (scan_returns lines (PInt 0)) as [total ->]. simpl.
    eexists. reflexivity.
Qed.

End Facts.

(** *** The model on concrete lines *)

(** A line of the shape the script is written for: no [s] before the
    parenthesis. *)
Lemma step_extracts_witness :
  exists i j,
    index_of "(" "iter 1 (175.76 s, 0.1 h)" = Ok i
    /\ index_of "s" "iter 1 (175.76 s, 0.1 h)" = Ok j
    /\ step simple_float (PInt 0) "iter 1 (175.76 s, 0.1 h)"
       = Ok (match simple_float (strip (slice "iter 1 (175.76 s, 0.1 h)" (i + 1) j)) with
             | Some t => py_add (PInt 0) t
             | None => PInt 0
             end)
    /\ (i < j ->
        spec_token "iter 1 (175.76 s, 0.1 h)"
        = Some (slice "iter 1 (175.76 s, 0.1 h)" (i + 1) j)).
Proof.
  apply (step_extracts simple_float (PInt 0) "iter 1 (175.76 s, 0.1 h)");
    reflexivity.
Defined.

Example step_adds_token :
  step simple_float (PInt 0) "iter 1 (175.76 s, 0.1 h)"
  = Ok (PFloat 0x1.5f851eb851eb8p+7%float).
Proof. reflexivity. Qed.

(** A line with an [s] before the parenthesis: the text between the first
    ["("] and the first ["s"] after it is ["175.76 "], a number, yet the
    line adds nothing, because the code cuts at the [s] of ["step"]. *)
Lemma step_first_s_precedes :
  contains "(" "step (175.76 s) done" = true
  /\ contains "s" "step (175.76 s) done" = true
  /\ spec_token "step (175.76 s) done" = Some "175.76 "
  /\ simple_float (strip "175.76 ") = Some 0x1.5f851eb851eb8p+7%float
  /\ index_of "(" "step (175.76 s) done" = Ok 5
  /\ index_of "s" "step (175.76 s) done" = Ok 0
  /\ slice "step (175.76 s) done" 6 0 = ""
  /\ step simple_float (PInt 0) "step (175.76 s) done" = Ok (PInt 0)
  /\ step simple_float (PInt 0) "step (175.76 s) done"
     <> Ok (py_add (PInt 0) 0x1.5f851eb851eb8p+7%float).
Proof. repeat split; discriminate. Qed.

Lemma malformed_line_skipped_witness :
  (5 < 0 -> slice "(abc s)" (0 + 1) 5 = "")
  /\ simple_float (strip (slice "(abc s)" (0 + 1) 5)) = None
  /\ parse_line simple_float "(abc s)" = Raise ValueError
  /\ step simple_float (PFloat 1%float) "(abc s)" = Ok (PFloat 1%float)
  /\ scan simple_float (PFloat 1%float) ["(abc s)"; "(2 s"]
     = scan simple_float (PFloat 1%float) ["(2 s"].
Proof.
  apply (malformed_line_skipped simple_float (PFloat 1%float) "(abc s)" 0 5 ["(2 s"]);
    [reflexivity | reflexivity | reflexivity | right; reflexivity].
Defined.

Example parenthesis_after_s_skipped :
  index_of "(" "seconds (12 s)" = Ok 8
  /\ index_of "s" "seconds (12 s)" = Ok 0
  /\ parse_line simple_float "seconds (12 s)" = Raise ValueError
  /\ step simple_float (PFloat 1%float) "seconds (12 s)" = Ok (PFloat 1%float).
Proof. repeat split. Qed.

Example two_spec_lines :
  calculate_total_time simple_float ["step (175.76 s) done"; "step (24.24 s) done"]
  = Ok 0%float
  /\ calculate_total_time simple_float ["(175.76 s"; "(24.24 s"]
     = Ok (PrimFloat.div 200%float 3600%float).
Proof. split; reflexivity. Qed.

End TotalTimeFacts.

(** ** Laws of the deep merge *)

Module MergeLaws.

Import YamlFacts Paths.






(** X2.  On documents without shared mappings (trees, as [value] has
    them), the merge keeps the keys of [dest] where they are, appends the keys
    it adds in the order of [source], and leaves alone the value of every
    key that [source] does not have. *)
Theorem deep_merge_keeps_dest (dest source : dict) :
  unique (keys source) = true ->
  keys (deep_merge dest source)
  = keys dest ++ filter (fun k => negb (dict_mem k dest)) (keys source)
  /\ firstn (List.length dest) (keys (deep_merge dest source)) = keys dest
  /\ (forall k, dict_get k source = None ->
                dict_get k (deep_merge dest source) = dict_get k dest).
Proof.
  intro Hu. split; [now apply keys_deep_merge|]. split.
  - rewrite (keys_deep_merge _ _ Hu), <- (length_keys dest).
    rewrite firstn_app, Nat.sub_diag, firstn_all. simpl. apply app_nil_r.
  - intros k Hk. now rewrite (dict_get_deep_merge _ _ _ Hu), Hk.
Qed.

Lemma deep_merge_keeps_dest_witness :
  keys (deep_merge [("b", YInt 1); ("a", YInt 2)] [("z", YInt 3); ("a", YInt 4); ("c", YInt 5)])
  = keys [("b", YInt 1); ("a", YInt 2)]
    ++ filter (fun k => negb (dict_mem k [("b", YInt 1); ("a", YInt 2)]))
         (keys [("z", YInt 3); ("a", YInt 4); ("c", YInt 5)]).
Proof.
  apply (deep_merge_keeps_dest [("b", YInt 1); ("a", YInt 2)]
           [("z", YInt 3); ("a", YInt 4); ("c", YInt 5)]).
  reflexivity.
Defined.

(** X3.  On documents without shared mappings:
    a setting of the override that is no mapping is found at the same
    path in the merged document, whatever the base holds there. *)
Theorem override_leaf_wins (path : list string) (dest source : dict) (v : value) :
  well_formed (YDict source) = true ->
  path <> [] ->
  get_path path (YDict source) = Some v ->
  is_dict v = false ->
  get_path path (YDict (deep_merge dest source)) = Some v.
Proof.
  revert dest source.
  induction path as [|k rest IH]; intros dest source Hwf Hne Hget Hleaf;
    [contradiction|].
  apply well_formed_dict in Hwf as [Hu Hv].
  cbn [get_path] in *.
  destruct (dict_get k source) as [w|] eqn:Hk; [|discriminate].
  rewrite (dict_get_deep_merge _ _ _ Hu), Hk.
  destruct rest as [|k' rest'].
  - injection Hget as ->.
    destruct v; try discriminate; destruct (dict_get k dest) as [[]|]; reflexivity.
  - destruct w as [| | | | | |src]; try discriminate.
    destruct (dict_get k dest) as [[| | | | | |sub]|]; try exact Hget.
    apply IH; [|discriminate|exact Hget|exact Hleaf].
    apply (Hv k). now apply dict_get_Some_In.
Qed.

Lemma override_leaf_wins_witness :
  get_path ["global"; "matlab"; "server"]
    (YDict (deep_merge
              [("global", YDict [("matlab", YDict [("local", YStr "l"); ("server", YStr "s")])])]
              [("global", YDict [("matlab", YDict [("server", YStr "override")])])]))
  = Some (YStr "override").
Proof. apply override_leaf_wins; [reflexivity | discriminate | reflexivity | reflexivity]. Defined.

(** X4.  On documents without shared mappings:
    a setting of the base survives the merge when the override, followed
    along the same path, reaches a mapping that lacks the next key. *)
Theorem untouched_path_kept (prefix : list string) (k : string) (rest : list string)
    (dest source sd : dict) (v : value) :
  well_formed (YDict source) = true ->
  get_path prefix (YDict source) = Some (YDict sd) ->
  dict_get k sd = None ->
  get_path (prefix ++ k :: rest) (YDict dest) = Some v ->
  get_path (prefix ++ k :: rest) (YDict (deep_merge dest source)) = Some v.
Proof.
  revert dest source.
  induction prefix as [|k0 prefix IH]; intros dest source Hwf Hsrc Hk Hdest;
    apply well_formed_dict in Hwf as [Hu Hv].
  - injection Hsrc as ->. cbn [app get_path] in *.
    now rewrite (dict_get_deep_merge _ _ _ Hu), Hk.
  - cbn [app get_path] in *.
    destruct (dict_get k0 source) as [w|] eqn:Hw; [|discriminate].
    destruct (dict_get k0 dest) as [wd|] eqn:Hwd; [|discriminate].
    rewrite (dict_get_deep_merge _ _ _ Hu), Hw, Hwd.
    assert (exists ws, w = YDict ws) as [ws ->].
    { destruct prefix; [injection Hsrc as ->; eauto|].
      destruct w; try discriminate. eauto. }
    assert (exists dd, wd = YDict dd) as [dd ->].
    { destruct prefix; destruct wd; try discriminate; eauto. }
    apply IH; try assumption.
    apply (Hv k0). now apply dict_get_Some_In.
Qed.

Lemma untouched_path_kept_witness :
  get_path (["global"; "matlab"] ++ "local" :: [])
    (YDict (deep_merge
              [("global", YDict [("matlab", YDict [("local", YStr "l"); ("server", YStr "s")])])]
              [("global", YDict [("matlab", YDict [("server", YStr "override")])])]))
  = Some (YStr "l").
Proof.
  apply (untouched_path_kept ["global"; "matlab"] "local" [] _ _
           [("server", YStr "override")]); reflexivity.
Defined.

(** X5.  The merge is not associative: a scalar in the middle document makes
    the grouping matter. *)
Theorem deep_merge_not_associative :
  ~ (forall a b c : dict,
        well_formed (YDict a) = true ->
        well_formed (YDict b) = true ->
        well_formed (YDict c) = true ->
        dict_eqb (deep_merge (deep_merge a b) c) (deep_merge a (deep_merge b c)) = true).
Proof.
  intro H.
  specialize (H [("k", YDict [("x", YInt 1)])] [("k", YInt 5)]
                [("k", YDict [("y", YInt 2)])] eq_refl eq_refl eq_refl).
  discriminate H.
Qed.

End MergeLaws.

(** ** Loading: what the configuration can become *)

Module LoaderLaws.

Import Config Sample Fixtures ConfigFacts.

Lemma deep_merge_dyn_raises (dest source : value) (e : exn) :
  deep_merge_dyn dest source = Raise e -> is_Exception e = true.
Proof.
  unfold deep_merge_dyn.
  destruct source as [| | | | | |src]; try (now intros [= <-]).
  destruct dest; try discriminate; destruct src; try discriminate;
    now intros [= <-].
Qed.

Section World.

Variable DEFAULT_CONFIG_FILE : string.
Variable open_read : string -> result string.
Variable safe_load : string -> result value.

Local Abbreviation load_custom := (_load_custom_config open_read safe_load).

(** What [_load_custom_config] does once the file is read and parsed. *)
Lemma load_custom_parsed (s : state) (path content : string) (custom : value) :
  open_read path = Ok content ->
  safe_load content = Ok custom ->
  load_custom path s
  = match deep_merge_dyn (config s) custom with
    | Ok merged =>
        (Ok tt,
         mkState merged (env s)
           (log s ++ [mkLog DEBUG ("Loaded custom configuration from " ++ path) None])
           (files s))
    | Raise e =>
        (Ok tt,
         mkState (config s) (env s)
           (log s ++ [mkLog ERROR ("Error loading custom config from " ++ path ++ ": ")
                        (Some e)])
           (files s))
    end.
Proof.
  intros Hopen Hparse.
  unfold _load_custom_config, try_except, mbind, lift, Config.get_config.
  rewrite Hopen. cbn beta iota. rewrite Hparse. cbn beta iota.
  destruct (deep_merge_dyn (config s) custom) as [merged|e] eqn:E.
  - reflexivity.
  - cbn beta iota. now rewrite (deep_merge_dyn_raises _ _ _ E).
Qed.


(** X8.  An override that parses to something other than a mapping (an empty
    file gives [None]) is reported as an error and changes nothing; an
    override that is the empty mapping is accepted and changes nothing. *)
Theorem override_must_be_mapping (s : state) (path content : string) (doc : value) :
  open_read path = Ok content ->
  safe_load content = Ok doc ->
  (is_dict doc = false ->
   load_custom path s
   = (Ok tt,
      mkState (config s) (env s)
        (log s ++ [mkLog ERROR ("Error loading custom config from " ++ path ++ ": ")
                     (Some AttributeError)])
        (files s)))
  /\ (doc = YDict [] ->
      load_custom path s
      = (Ok tt,
         mkState (config s) (env s)
           (log s ++ [mkLog DEBUG ("Loaded custom configuration from " ++ path) None])
           (files s))).
Proof.
  intros Hopen Hparse.
  rewrite (load_custom_parsed s path content doc Hopen Hparse). split.
  - intro Hnd. destruct doc; try reflexivity. discriminate.
  - intros ->. simpl. destruct (config s); reflexivity.
Qed.

End World.


Lemma override_must_be_mapping_witness :
  _load_custom_config open_empty load_empty "empty.yml" (demo_state "local")
  = (Ok tt,
     mkState demo_doc "local"
       ([] ++ [mkLog ERROR ("Error loading custom config from " ++ "empty.yml" ++ ": ")
                 (Some AttributeError)])
       []).
Proof.
  apply (proj1 (override_must_be_mapping open_empty load_empty (demo_state "local")
                  "empty.yml" "" YNull eq_refl eq_refl)).
  reflexivity.
Defined.

End LoaderLaws.

(** ** Accessors and export: when they succeed and what they touch *)

Module AccessorLaws.

Import Config Sample Paths YamlFacts ConfigFacts.

(** X10.  [get_matlab_path] returns exactly when the configuration is a mapping
    whose ["global"] is a mapping whose ["matlab"] is a mapping with a
    ["local"] entry. *)
Theorem get_matlab_path_defined (s : state) :
  returns (get_matlab_path s)
  <-> exists cfg g m loc,
        config s = YDict cfg
        /\ dict_get "global" cfg = Some (YDict g)
        /\ dict_get "matlab" g = Some (YDict m)
        /\ dict_get "local" m = Some loc.
Proof.
  unfold returns, get_matlab_path. split.
  - intros [path H].
    destruct (config s) as [| | | | | |cfg]; try discriminate.
    unfold subscript at 1 3 in H.
    destruct (dict_get "global" cfg) as [g|] eqn:Eg; [|discriminate].
    cbn [bind] in H.
    destruct g as [| | | | | |g]; try discriminate.
    unfold subscript at 1 2 in H.
    destruct (dict_get "matlab" g) as [m|] eqn:Em; [|discriminate].
    cbn [bind] in H.
    destruct m as [| | | | | |m]; try discriminate.
    cbn [attr_get bind subscript] in H.
    destruct (dict_get "local" m) as [loc|] eqn:El; [|discriminate].
    exists cfg, g, m, loc. auto.
  - intros (cfg & g & m & loc & Hc & Hg & Hm & Hl).
    rewrite Hc, !(subscript_dict _ _ _ Hg). cbn [bind].
    rewrite !(subscript_dict _ _ _ Hm). cbn [bind attr_get].
    rewrite (subscript_dict _ _ _ Hl). cbn [bind]. eauto.
Qed.

(** X11.  The plain accessors read the configuration at a fixed path of keys:
    each returns a value exactly when the path leads to it. *)
Theorem accessors_read_paths (s : state) (v : value) :
  (get_amica_params s = Ok v <-> get_path ["global"; "amica"] (config s) = Some v)
  /\ (get_eeglab_path s = Ok v
      <-> get_path ["global"; "eeglab"; "path"] (config s) = Some v)
  /\ (get_matlab_startup_options s = Ok v
      <-> get_path ["global"; "eeglab"; "startup_options"] (config s) = Some v)
  /\ (get_project_structure s = Ok v
      <-> get_path ["project"; "structure"] (config s) = Some v).
Proof.
  unfold get_amica_params, get_eeglab_path, get_matlab_startup_options,
    get_project_structure.
  destruct (config s) as [| | | | | |cfg];
    try (repeat split; discriminate).
  cbn [get_path subscript].
  repeat split.
  all: try (destruct (dict_get "global" cfg) as [[| | | | | |g]|];
            cbn [bind subscript]; try discriminate;
            try (destruct (dict_get "eeglab" g) as [[| | | | | |e]|];
                 cbn [bind subscript]; try discriminate);
            repeat match goal with
                   | |- context [dict_get ?k ?d] => destruct (dict_get k d)
                   end;
            congruence).
  all: destruct (dict_get "project" cfg) as [[| | | | | |pr]|];
    cbn [bind subscript]; try discriminate;
    destruct (dict_get "structure" pr); congruence.
Qed.

(** X12.  On documents without shared mappings:
    after a merge, the path of an environment that the override sets to
    a string is the override's, provided some side has a ["local"] entry;
    for an environment the override does not mention (nor ["local"]) the
    path is the one of the base. *)
Theorem merged_matlab_path (b o g g' m m' : dict) (e : string)
    (l : list log_record) (f : list (string * string)) :
  unique (keys o) = true ->
  unique (keys g') = true ->
  unique (keys m') = true ->
  dict_get "global" b = Some (YDict g) ->
  dict_get "global" o = Some (YDict g') ->
  dict_get "matlab" g = Some (YDict m) ->
  dict_get "matlab" g' = Some (YDict m') ->
  (forall p,
      dict_get e m' = Some (YStr p) ->
      In "local" (keys m) \/ In "local" (keys m') ->
      get_matlab_path (mkState (YDict (deep_merge b o)) e l f) = Ok (YStr p))
  /\ (dict_get e m' = None ->
      dict_get "local" m' = None ->
      get_matlab_path (mkState (YDict (deep_merge b o)) e l f)
      = get_matlab_path (mkState (YDict b) e l f)).
Proof.
  intros Ho Hg' Hm' Hbg Hog Hgm Hgm'.
  assert (dict_get "global" (deep_merge b o) = Some (YDict (deep_merge g g'))) as Hmg.
  { now rewrite (dict_get_deep_merge _ _ _ Ho), Hog, Hbg. }
  assert (dict_get "matlab" (deep_merge g g') = Some (YDict (deep_merge m m'))) as Hmm.
  { now rewrite (dict_get_deep_merge _ _ _ Hg'), Hgm', Hgm. }
  unfold get_matlab_path. cbn [config env].
  rewrite !(subscript_dict _ _ _ Hmg), !(subscript_dict _ _ _ Hbg). cbn [bind].
  rewrite !(subscript_dict _ _ _ Hmm), !(subscript_dict _ _ _ Hgm).
  cbn [bind attr_get subscript].
  split.
  - intros p He Hlocal.
    assert (In "local" (keys (deep_merge m m'))) as Hin.
    { rewrite (keys_deep_merge _ _ Hm'). apply in_or_app.
      destruct Hlocal as [Hl|Hl]; [now left|].
      destruct (dict_mem "local" m) eqn:E.
      - left. now apply dict_mem_In.
      - right. apply filter_In. split; [exact Hl | now rewrite E]. }
    apply dict_get_In in Hin as [loc Hloc]. rewrite Hloc. cbn [bind].
    rewrite (dict_get_deep_merge _ _ _ Hm'), He.
    destruct (dict_get e m) as [[]|]; reflexivity.
  - intros He Hl.
    now rewrite !(dict_get_deep_merge _ _ _ Hm'), He, Hl.
Qed.

Lemma merged_matlab_path_witness :
  get_matlab_path
    (mkState
       (YDict (deep_merge
                 [("global", YDict [("matlab", YDict [("local", YStr "/usr/bin/matlab")])])]
                 [("global", YDict [("matlab", YDict [("server", YStr "/site/matlab")])])]))
       "server" [] [])
  = Ok (YStr "/site/matlab").
Proof.
  refine (proj1 (merged_matlab_path
                   [("global", YDict [("matlab", YDict [("local", YStr "/usr/bin/matlab")])])]
                   [("global", YDict [("matlab", YDict [("server", YStr "/site/matlab")])])]
                   [("matlab", YDict [("local", YStr "/usr/bin/matlab")])]
                   [("matlab", YDict [("server", YStr "/site/matlab")])]
                   [("local", YStr "/usr/bin/matlab")]
                   [("server", YStr "/site/matlab")]
                   "server" [] []
                   eq_refl eq_refl eq_refl eq_refl eq_refl eq_refl eq_refl)
            "/site/matlab" eq_refl _).
  left. simpl. now left.
Defined.

(** X13.  [get_implementation_config] changes nothing but the log, and the log
    only by the one warning that goes with the empty mapping. *)
Theorem get_implementation_config_footprint (name : string) (s : state) :
  get_implementation_config name s = (fst (get_implementation_config name s), s)
  \/ get_implementation_config name s = (Ok (YDict []), warn_unknown s name).
Proof.
  unfold get_implementation_config, mbind, Config.get_config, lift, logger, ret,
    warn_unknown.
  cbn beta iota.
  destruct (subscript (config s) "implementations") as [impls|e] eqn:E;
    [|now left].
  destruct (contains name impls) as [[|]|e]; [|now right|now left].
  left. rewrite E. destruct (subscript impls name); reflexivity.
Qed.

Lemma get_implementation_config_keeps_env (name : string) (s : state) :
  env (snd (get_implementation_config name s)) = env s.
Proof.
  unfold get_implementation_config, mbind, Config.get_config, lift, logger, ret.
  cbn beta iota.
  destruct (subscript (config s) "implementations") as [impls|e] eqn:E;
    [|reflexivity].
  destruct (contains name impls) as [[|]|e]; try reflexivity.
  rewrite E. destruct (subscript impls name); reflexivity.
Qed.

Lemma matlab_config_footprint (implementation : string) (s : state) :
  config (snd (matlab_config implementation s)) = config s
  /\ env (snd (matlab_config implementation s)) = env s
  /\ files (snd (matlab_config implementation s)) = files s.
Proof.
  pose proof (get_implementation_config_keeps_config implementation s) as Hc.
  pose proof (get_implementation_config_keeps_env implementation s) as He.
  pose proof (get_implementation_config_keeps_files implementation s) as Hf.
  unfold matlab_config, mbind, ret, reading.
  destruct (get_amica_params s); [|auto].
  destruct (get_implementation_config implementation s) as [[profile|e] s1];
    simpl in *; [|auto].
  destruct (get_eeglab_path s1); [|auto].
  destruct (String.eqb implementation "strengthen"); [|auto].
  destruct (get_project_structure s1); auto.
Qed.

Section Exporting.

Variable json_dumps : value -> string.
Variable temp_name : list (string * string) -> string.

Local Abbreviation export := (export_matlab_config json_dumps temp_name).

(** X14.  [export_matlab_config] never changes the configuration or the
    environment, and when it returns it has written exactly one file,
    under the name it returns. *)
Theorem export_footprint (implementation : string) (s : state) :
  config (snd (export implementation s)) = config s
  /\ env (snd (export implementation s)) = env s
  /\ forall name,
       fst (export implementation s) = Ok name ->
       name = temp_name (files s)
       /\ exists content,
            files (snd (export implementation s)) = files s ++ [(name, content)].
Proof.
  destruct (matlab_config_footprint implementation s) as (Hc & He & Hf).
  unfold export_matlab_config, mbind, reading, write_file, ret.
  destruct (matlab_config implementation s) as [[cfg|e] s1]; simpl in *.
  - rewrite Hf. split; [assumption|]. split; [assumption|].
    intros name [= <-]. split; [reflexivity | eauto].
  - split; [assumption|]. split; [assumption|]. intros name H. discriminate H.
Qed.


End Exporting.


End AccessorLaws.

(** ** The command line of the configuration parser *)

Module CliFacts.

Import Config Cli Sample ConfigFacts.

Section Dispatch.

Variable yaml_dump : value -> string.
Variable json_dumps : value -> string.
Variable temp_name : list (string * string) -> string.

Local Abbreviation main := (Cli.main yaml_dump json_dumps temp_name).

(** X16.  Without [--export-matlab], [main] prints the profile of the chosen
    implementation only when that profile is truthy: for an empty profile
    and for an unknown implementation (after the warning) it prints the
    whole configuration, as it does with no implementation at all, with or
    without [--export-matlab]. *)
Theorem main_prints_profile_or_everything (s : state) (cfg impls : dict)
    (name : string) :
  config s = YDict cfg ->
  dict_get "implementations" cfg = Some (YDict impls) ->
  name <> "" ->
  (forall profile,
      dict_get name impls = Some profile ->
      main (Some name) false s
      = (Ok (yaml_dump (if truth profile then profile else config s)), s))
  /\ (dict_get name impls = None ->
      main (Some name) false s = (Ok (yaml_dump (config s)), warn_unknown s name))
  /\ (forall export_matlab,
        main None export_matlab s = (Ok (yaml_dump (config s)), s)).
Proof.
  intros Hc Hi Hname.
  assert (truthy (Some name) = true) as Ht.
  { simpl. destruct (String.eqb_spec name ""); [contradiction | reflexivity]. }
  split; [|split].
  - intros profile Hp.
    unfold Cli.main, Cli.get_config, mbind. rewrite Ht.
    rewrite (get_implementation_config_found s cfg impls name profile Hc Hi Hp).
    unfold ret, Config.get_config. cbn beta iota.
    destruct (truth profile); reflexivity.
  - intro Hn.
    unfold Cli.main, Cli.get_config, mbind. rewrite Ht.
    rewrite (get_implementation_config_unknown s cfg impls name Hc Hi Hn).
    reflexivity.
  - intros [|]; reflexivity.
Qed.


End Dispatch.

Section Detection.

Variable path_exists : string -> bool.
Variable in_environ : string -> bool.

Local Abbreviation detect := (_detect_environment path_exists in_environ).

(** X18.  The detected environment is one of the three names the command line
    accepts; a container marker wins over a cluster marker; and on a
    configuration whose environment mapping has a ["local"] entry, a
    manager built without an explicit environment gets from
    [get_matlab_path] the entry of the detected environment, or the
    ["local"] one when the mapping has none for it. *)
Theorem detected_environment_path (cfg g m : dict) (loc : value)
    (l : list log_record) (f : list (string * string)) :
  dict_get "global" cfg = Some (YDict g) ->
  dict_get "matlab" g = Some (YDict m) ->
  dict_get "local" m = Some loc ->
  In detect ["container"; "server"; "local"]
  /\ (path_exists "/.dockerenv" = true \/ path_exists "/.singularity.d" = true ->
      detect = "container")
  /\ init_env path_exists in_environ None = detect
  /\ init_env path_exists in_environ (Some "") = detect
  /\ get_matlab_path (mkState (YDict cfg) (init_env path_exists in_environ None) l f)
     = Ok (match dict_get detect m with
           | Some path => path
           | None => loc
           end).
Proof.
  intros Hg Hm Hl. split; [|split; [|split; [|split]]].
  - unfold _detect_environment.
    destruct (path_exists "/.dockerenv" || path_exists "/.singularity.d");
      [simpl; auto|].
    destruct (path_exists "/etc/slurm" || in_environ "SLURM_JOB_ID"); simpl; auto.
  - intros H. unfold _detect_environment.
    assert (path_exists "/.dockerenv" || path_exists "/.singularity.d" = true) as ->;
      [|reflexivity].
    apply orb_true_iff. exact H.
  - reflexivity.
  - reflexivity.
  - unfold get_matlab_path. cbn [config env init_env].
    rewrite !(subscript_dict _ _ _ Hg). cbn [bind].
    rewrite !(subscript_dict _ _ _ Hm). cbn [bind attr_get].
    now rewrite (subscript_dict _ _ _ Hl).
Qed.

End Detection.

Lemma main_prints_profile_or_everything_witness :
  Cli.main (fun _ => "<yaml>") demo_json demo_temp (Some "serial") false (demo_state "local")
  = (Ok "<yaml>", warn_unknown (demo_state "local") "serial").
Proof.
  refine (proj1 (proj2 (main_prints_profile_or_everything (fun _ => "<yaml>") demo_json
                          demo_temp (demo_state "local")
                          match demo_doc with YDict d => d | _ => [] end
                          [("parallel", YDict [("max_threads", YInt 8)]);
                           ("strengthen", YDict [("use_cluster", YBool true)])]
                          "serial" eq_refl eq_refl _)) eq_refl).
  discriminate.
Defined.


Lemma detected_environment_path_witness :
  get_matlab_path
    (mkState demo_doc
       (init_env (fun p => String.eqb p "/.dockerenv") (fun _ => true) None) [] [])
  = Ok (YStr "/usr/local/bin/matlab").
Proof.
  refine (proj2 (proj2 (proj2 (proj2
            (detected_environment_path (fun p => String.eqb p "/.dockerenv") (fun _ => true)
               match demo_doc with YDict d => d | _ => [] end
               match dict_get "global" match demo_doc with YDict d => d | _ => [] end with
               | Some (YDict g) => g
               | _ => []
               end
               [("local", YStr "/usr/local/bin/matlab");
                ("server", YStr "/opt/matlab/bin/matlab")]
               (YStr "/usr/local/bin/matlab") [] [] eq_refl eq_refl eq_refl))))).
Defined.

End CliFacts.

(** ** The command line of the aggregator *)

Module ScriptFacts.

Import TotalTime Script TotalTimeFacts.

Section Run.

Variable py_float : string -> option float.
Variable read_lines : string -> result (list string).
Variable format_hours : float -> string.

Local Abbreviation main := (Script.main py_float read_lines format_hours).

(** X19.  Run without a file argument, the script prints the usage line and
    then, instead of stopping, fails with [IndexError] on [sys.argv[1]]:
    the file is never read and no total is printed. *)
Theorem main_without_argument (argv : list string) :
  List.length argv < 2 ->
  main argv = (["Usage: python3 total_time.py <file_path>"], IndexError).
Proof.
  intro Hlen. unfold Script.main.
  destruct argv as [|prog [|p rest]]; simpl in *; try reflexivity. lia.
Qed.

(** X20.  Run with a file argument (further arguments are ignored), the script
    prints no usage line; when the file can be read it prints exactly one
    line, the formatted total, and finishes; when it cannot, the exception
    is uncaught and nothing is printed. *)
Theorem main_with_argument (prog file_path : string) (rest : list string) :
  (forall lines,
      read_lines file_path = Ok lines ->
      exists total_hours,
        calculate_total_time py_float lines = Ok total_hours
        /\ main (prog :: file_path :: rest)
           = ([("Total time in hours: " ++ format_hours total_hours)%string], Finished))
  /\ (forall e,
        read_lines file_path = Raise e ->
        main (prog :: file_path :: rest) = ([], Uncaught e)).
Proof.
  split.
  - intros lines Hr.
    assert (exists h, calculate_total_time py_float lines = Ok h) as [h Hh].
    { unfold calculate_total_time.
      destruct (scan_returns py_float lines (PInt 0)) as [total ->]. simpl. eauto. }
    exists h. split; [exact Hh|].
    unfold Script.main, calculate_total_time_of. simpl. rewrite Hr. simpl.
    now rewrite Hh.
  - intros e Hr. unfold Script.main, calculate_total_time_of. simpl. now rewrite Hr.
Qed.

End Run.

Lemma main_without_argument_witness :
  Script.main simple_float (fun _ => Ok []) (fun _ => "0.00") ["total_time.py"]
  = (["Usage: python3 total_time.py <file_path>"], IndexError).
Proof. apply main_without_argument. simpl. lia. Defined.

End ScriptFacts.

(** ** Laws of the scan *)

Module TotalTimeLaws.

Import TotalTime TotalTimeFacts.

Section Laws.

Variable py_float : string -> option float.

Local Abbreviation step := (TotalTime.step py_float).
Local Abbreviation scan := (TotalTime.scan py_float).
Local Abbreviation calculate_total_time := (TotalTime.calculate_total_time py_float).

Lemma step_unguarded (total : pynum) (line : string) :
  contains "(" line && contains "s" line = false -> step total line = Ok total.
Proof. intro H. unfold TotalTime.step. now rewrite H. Qed.

Lemma step_s_first (total : pynum) (line : string) (i j : nat) :
  py_float "" = None ->
  index_of "(" line = Ok i -> index_of "s" line = Ok j -> j < i ->
  step total line = Ok total.
Proof.
  intros Hempty Hi Hj Hlt.
  rewrite (step_guarded py_float total line i j Hi Hj).
  rewrite slice_empty; [change (strip "") with ""; now rewrite Hempty | lia |].
  destruct (contains_index_of _ _ (index_of_contains _ _ _ Hi)) as [i' [Hi' Hlen]].
  rewrite Hi in Hi'. injection Hi' as <-. lia.
Qed.

(** X21.  A log in which every line has an [s] before its first parenthesis
    adds up to zero hours, whatever numbers its lines hold. *)
Theorem s_before_parenthesis_sums_to_zero (lines : list string) :
  py_float "" = None ->
  Forall (fun line =>
            exists i j,
              index_of "(" line = Ok i /\ index_of "s" line = Ok j /\ j < i) lines ->
  calculate_total_time lines = Ok 0%float.
Proof.
  intros Hempty Hall. unfold TotalTime.calculate_total_time.
  assert (scan (PInt 0) lines = Ok (PInt 0)) as ->; [|reflexivity].
  induction Hall as [|line rest (i & j & Hi & Hj & Hlt) _ IH]; [reflexivity|].
  simpl. now rewrite (step_s_first (PInt 0) line i j Hempty Hi Hj Hlt).
Qed.

Lemma scan_adds (lines : list string) (ts : list float) (total : pynum) :
  Forall2 (fun line t =>
             exists i j tok,
               index_of "(" line = Ok i /\ index_of "s" line = Ok j /\ i < j
               /\ spec_token line = Some tok /\ py_float (strip tok) = Some t)
    lines ts ->
  scan total lines = Ok (fold_left py_add ts total).
Proof.
  intro H. revert total.
  induction H as [|line t lines ts (i & j & tok & Hi & Hj & Hlt & Htok & Hf) _ IH];
    intro total; [reflexivity|].
  simpl. rewrite (step_guarded py_float total line i j Hi Hj).
  rewrite (spec_token_slice line i j Hi Hj Hlt) in Htok. injection Htok as <-.
  rewrite Hf. simpl. apply IH.
Qed.

Lemma fold_py_add_float (ts : list float) (f : float) :
  to_float (fold_left py_add ts (PFloat f)) = fold_left PrimFloat.add ts f.
Proof.
  revert f. induction ts as [|t ts IH]; intro f; [reflexivity|].
  simpl. apply IH.
Qed.

(** X22.  On a log in which every line has its first [s] after its first
    parenthesis and a number in between, the result is the sum of those
    numbers, added from left to right starting from zero, divided by
    3600. *)
Theorem well_shaped_log_total (lines : list string) (ts : list float) :
  Forall2 (fun line t =>
             exists i j tok,
               index_of "(" line = Ok i /\ index_of "s" line = Ok j /\ i < j
               /\ spec_token line = Some tok /\ py_float (strip tok) = Some t)
    lines ts ->
  calculate_total_time lines
  = Ok (PrimFloat.div (fold_left PrimFloat.add ts 0%float) 3600%float).
Proof.
  intro H. unfold TotalTime.calculate_total_time.
  rewrite (scan_adds lines ts (PInt 0) H). simpl. unfold py_truediv. f_equal. f_equal.
  destruct ts as [|t ts]; [reflexivity|].
  simpl. apply fold_py_add_float.
Qed.

(** X23.  Lines without a parenthesis or without an [s] can be removed from the
    log without changing the result. *)
Theorem unguarded_lines_irrelevant (lines : list string) :
  calculate_total_time lines
  = calculate_total_time
      (filter (fun line => contains "(" line && contains "s" line) lines).
Proof.
  unfold TotalTime.calculate_total_time. f_equal.
  generalize (PInt 0) as total.
  induction lines as [|line rest IH]; intro total; [reflexivity|].
  simpl. destruct (contains "(" line && contains "s" line) eqn:E.
  - simpl. destruct (step total line) as [total'|e]; [apply IH | reflexivity].
  - rewrite (step_unguarded total line E). simpl. apply IH.
Qed.

(** X24.  The running total is the integer [0] until a line contributes and a
    float from then on: it is never another integer. *)
Theorem accumulator_int_zero_or_float (lines : list string) :
  scan (PInt 0) lines = Ok (PInt 0)
  \/ exists f, scan (PInt 0) lines = Ok (PFloat f).
Proof.
  generalize (PInt 0) as total.
  induction lines as [|line rest IH]; intro total; [now left|].
  simpl.
  assert (step total line = Ok total \/ exists f, step total line = Ok (PFloat f)) as [->| [f ->]].
  { unfold TotalTime.step.
    destruct (contains "(" line && contains "s" line); [|now left].
    destruct (TotalTime.parse_line py_float line) as [t|e] eqn:E.
    - right. eexists. reflexivity.
    - apply parse_line_raises in E. subst e. now left. }
  - simpl. apply IH.
  - simpl. right. destruct (IH (PFloat f)) as [H|H]; eauto.
Qed.

End Laws.

Lemma s_before_parenthesis_sums_to_zero_witness :
  TotalTime.calculate_total_time simple_float
    ["step (175.76 s) done"; "step (24.24 s) done"]
  = Ok 0%float.
Proof.
  apply (s_before_parenthesis_sums_to_zero simple_float); [reflexivity|].
  repeat constructor; exists 5, 0; repeat split; lia.
Defined.

Lemma well_shaped_log_total_witness :
  TotalTime.calculate_total_time simple_float ["iter 1 (175.76 s, 0.1 h)"; "(24.24 s"]
  = Ok (PrimFloat.div
          (fold_left PrimFloat.add
             [0x1.5f851eb851eb8p+7%float; 0x1.83d70a3d70a3dp+4%float] 0%float)
          3600%float).
Proof.
  apply (well_shaped_log_total simple_float).
  repeat constructor.
  - exists 7, 15, "175.76 ". repeat split. lia.
  - exists 0, 7, "24.24 ". repeat split. lia.
Defined.

End TotalTimeLaws.

(** ** The merge on shared objects: what sharing changes *)

Module HeapFacts.

Import Heap.

(** Without sharing, the merge on the store gives the document that the
    merge on trees gives. *)
Example unshared_merge_agrees :
  merged_document unshared_store 0 1
  = Some (YDict (deep_merge [("a", YDict [("p", YInt 1)]); ("b", YDict [("p", YInt 1)])]
                   [("a", YDict [("p", YInt 2)]); ("b", YDict [("p", YInt 3)])]))
  /\ merged_document unshared_store 0 5
     = Some (YDict (deep_merge [("a", YDict [("p", YInt 1)]); ("b", YDict [("p", YInt 1)])]
                      [("b", YDict [("p", YInt 3)]); ("a", YDict [("p", YInt 2)])])).
Proof. split; reflexivity. Qed.

(** With a base whose keys [a] and [b] hold one and the same mapping, the
    order of the keys of the override decides the result: listed [a, b]
    the shared mapping ends as [{p: 3}], listed [b, a] as [{p: 2}], and the
    two merged documents are not equal. *)
Lemma deep_merge_alias_order_dependent :
  (exists items items',
      hget 1 aliased_store = Some items
      /\ hget 5 aliased_store = Some items'
      /\ Permutation items items')
  /\ merged_document aliased_store 0 1
     = Some (YDict [("a", YDict [("p", YInt 3)]); ("b", YDict [("p", YInt 3)])])
  /\ merged_document aliased_store 0 5
     = Some (YDict [("a", YDict [("p", YInt 2)]); ("b", YDict [("p", YInt 2)])])
  /\ value_eqb (YDict [("a", YDict [("p", YInt 3)]); ("b", YDict [("p", YInt 3)])])
       (YDict [("a", YDict [("p", YInt 2)]); ("b", YDict [("p", YInt 2)])])
     = false.
Proof.
  split; [|split; [|split]]; try reflexivity.
  exists [("a", Ref 3); ("b", Ref 4)], [("b", Ref 4); ("a", Ref 3)].
  split; [reflexivity|]. split; [reflexivity|]. apply perm_swap.
Qed.

End HeapFacts.
